(** * Hotelix: the recommendation chatbot, embedded and checked against its specification

    The development follows the Python sources of the repository:

    - [chatbot/ai/recommendation.py]  scoring and ranking of hotel offers;
    - [chatbot/views.py]              the per-turn merge of the extracted intent
                                      into the stored search preferences;
    - [chatbot/ai/llm_engine.py]      the intent extractor and the reply generator;
    - [chatbot/ai/makcorps_client.py] the Makcorps search adapter.

    Python values are JSON-shaped: [None], booleans, integers, floats, strings,
    lists and string-keyed dictionaries.  Floats are idealised as exact
    rationals ([Q]): NaN, the infinities and rounding are outside the model.
    Exceptions are explicit ([result]); calls to the provider are recorded in a
    trace.  The builtins whose behaviour on text is a library matter
    ([float(str)], [int(str)], [str(obj)], [json.loads], [str.strip], the text
    of an exception) are the fields of a [Runtime]; the general statements
    hold for all runtimes, the worked examples use a small one. *)

From Stdlib Require Import ZArith QArith Qround Qminmax Lqa String Ascii List Bool Lia.
From Stdlib Require Import Permutation Sorted SetoidList.
Import ListNotations.

Set Implicit Arguments.
Local Open Scope string_scope.
Local Open Scope list_scope.

(** ** Python values, exceptions and the builtins the sources use *)

Module Py.

#[local] Set Warnings "-register-all".

Inductive value : Type :=
| VNone
| VBool (b : bool)
| VInt (n : Z)
| VFloat (x : Q)
| VStr (s : string)
| VList (l : list value)
| VDict (d : list (string * value)).

(** A [dict] keeps its items in insertion order, one item per key. *)
Definition dict := list (string * value).

(** The exceptions the sources can meet: the builtin ones, and those of the
    [requests] library ([Timeout], and [RequestException] for the others). *)
Inductive exn :=
| TypeError | ValueError | AttributeError | KeyError | IndexError
| Timeout | RequestException.

Inductive result (A : Type) : Type :=
| Ok (a : A)
| Raise (e : exn).
Arguments Ok {A} a.
Arguments Raise {A} e.

Definition bind {A B} (c : result A) (k : A -> result B) : result B :=
  match c with
  | Ok a => k a
  | Raise e => Raise e
  end.

Definition returns {A} (c : result A) : Prop := exists a, c = Ok a.

(** [d[k]] as a partial lookup. *)
Fixpoint lookup (k : string) (d : dict) : option value :=
  match d with
  | [] => None
  | (k', v) :: rest => if String.eqb k k' then Some v else lookup k rest
  end.

(** [d.get(k, default)] and [d.get(k)]. *)
Definition get_default (d : dict) (k : string) (default : value) : value :=
  match lookup k d with
  | Some v => v
  | None => default
  end.

Definition get (d : dict) (k : string) : value := get_default d k VNone.

(** [d[k] = v]: replaces the item in place, or appends a new one. *)
Fixpoint setitem (k : string) (v : value) (d : dict) : dict :=
  match d with
  | [] => [(k, v)]
  | (k', v') :: rest =>
      if String.eqb k k' then (k, v) :: rest else (k', v') :: setitem k v rest
  end.

(** [v.get(k, default)] on any value: only a dictionary has the method. *)
Definition call_get (v : value) (k : string) (default : value) : result value :=
  match v with
  | VDict d => Ok (get_default d k default)
  | _ => Raise AttributeError
  end.

(** [d[k]] on a dictionary. *)
Definition getitem (d : dict) (k : string) : result value :=
  match lookup k d with
  | Some v => Ok v
  | None => Raise KeyError
  end.

(** [v[i]] for a position [i]: lists and strings are indexed; a dictionary
    (whose keys are strings) has no such key; other values are not
    subscriptable. *)
Definition subscript (v : value) (i : nat) : result value :=
  match v with
  | VList l =>
      match nth_error l i with
      | Some x => Ok x
      | None => Raise IndexError
      end
  | VStr s =>
      match String.get i s with
      | Some c => Ok (VStr (String c EmptyString))
      | None => Raise IndexError
      end
  | VDict _ => Raise KeyError
  | _ => Raise TypeError
  end.

(** [bool(v)]. *)
Definition truthy (v : value) : bool :=
  match v with
  | VNone => false
  | VBool b => b
  | VInt n => negb (n =? 0)%Z
  | VFloat x => negb (Qeq_bool x 0)
  | VStr s => negb (String.eqb s EmptyString)
  | VList l => match l with [] => false | _ :: _ => true end
  | VDict d => match d with [] => false | _ :: _ => true end
  end.

(** [a or b]. *)
Definition or_ (a b : value) : value := if truthy a then a else b.

(** [v is not None]. *)
Definition is_not_none (v : value) : bool :=
  match v with VNone => false | _ => true end.

(** [x < y] and [x <= y] on floats. *)
Definition Qltb (x y : Q) : bool := negb (Qle_bool y x).
Definition Qleb (x y : Q) : bool := Qle_bool x y.

(** [min(a, b)] keeps [a] unless [b < a]; [max(a, b)] keeps [a] unless [b > a]. *)
Definition min_ (a b : Q) : Q := if Qltb b a then b else a.
Definition max_ (a b : Q) : Q := if Qltb a b then b else a.

(** [int(x)] of a float truncates towards zero. *)
Definition truncate (x : Q) : Z :=
  if Qle_bool 0 x then Qfloor x else Qceiling x.

Definition bool_to_Z (b : bool) : Z := if b then 1%Z else 0%Z.

(** The library functions that read or write text. *)
Class Runtime : Type := {
  float_of_str : string -> option Q;      (* float(s); None is ValueError *)
  int_of_str : string -> option Z;        (* int(s); None is ValueError *)
  str_of : value -> string;               (* str(v) and f-string formatting *)
  json_loads : string -> option value;    (* json.loads(s); None is JSONDecodeError *)
  str_strip : string -> string;           (* s.strip() *)
  exn_text : exn -> string                (* str(e) *)
}.

Section Builtins.
Context {rt : Runtime}.

(** [float(v)]. *)
Definition float_ (v : value) : result Q :=
  match v with
  | VNone => Raise TypeError
  | VBool b => Ok (inject_Z (bool_to_Z b))
  | VInt n => Ok (inject_Z n)
  | VFloat x => Ok x
  | VStr s =>
      match float_of_str s with
      | Some x => Ok x
      | None => Raise ValueError
      end
  | VList _ | VDict _ => Raise TypeError
  end.

(** [int(v)]. *)
Definition int_ (v : value) : result Z :=
  match v with
  | VNone => Raise TypeError
  | VBool b => Ok (bool_to_Z b)
  | VInt n => Ok n
  | VFloat x => Ok (truncate x)
  | VStr s =>
      match int_of_str s with
      | Some n => Ok n
      | None => Raise ValueError
      end
  | VList _ | VDict _ => Raise TypeError
  end.
End Builtins.

(** The numeric value of a number; booleans count as 0 and 1. *)
Definition as_number (v : value) : option Q :=
  match v with
  | VBool b => Some (inject_Z (bool_to_Z b))
  | VInt n => Some (inject_Z n)
  | VFloat x => Some x
  | _ => None
  end.

Definition hashable (v : value) : bool :=
  match v with
  | VList _ | VDict _ => false
  | _ => true
  end.

(** [a == b] on hashable values: numbers compare by value across
    [bool], [int] and [float]. *)
Definition eqb (a b : value) : bool :=
  match as_number a, as_number b with
  | Some x, Some y => Qeq_bool x y
  | None, None =>
      match a, b with
      | VNone, VNone => true
      | VStr s, VStr t => String.eqb s t
      | _, _ => false
      end
  | _, _ => false
  end.

(** [iter(v)]: the items of a list, the characters of a string, the keys of
    a dictionary. *)
Definition iter (v : value) : result (list value) :=
  match v with
  | VList l => Ok l
  | VStr s => Ok (map (fun c => VStr (String c EmptyString)) (list_ascii_of_string s))
  | VDict d => Ok (map (fun kv => VStr (fst kv)) d)
  | _ => Raise TypeError
  end.

Definition mem (x : value) (s : list value) : bool := existsb (eqb x) s.

(** Adding the items one by one to an empty set: an item already present is
    dropped. *)
Definition set_add (acc : list value) (x : value) : list value :=
  if mem x acc then acc else acc ++ [x].

(** [set(v)]: a set is kept as the list of its distinct elements. *)
Definition set_ (v : value) : result (list value) :=
  bind (iter v) (fun items =>
    if forallb hashable items
    then Ok (fold_left set_add items [])
    else Raise TypeError).

(** [a & b]. *)
Definition set_inter (a b : list value) : list value :=
  filter (fun x => mem x b) a.

Definition nonempty {A} (l : list A) : bool :=
  match l with [] => false | _ :: _ => true end.

(** The stable ascending sort of [list.sort]: an item is inserted in front
    of the first item whose key is not smaller. *)
Section Sorting.
Variables (A : Type) (key : A -> Q).

Fixpoint insert (x : A) (l : list A) : list A :=
  match l with
  | [] => [x]
  | y :: ys => if Qleb (key x) (key y) then x :: y :: ys else y :: insert x ys
  end.

Definition sort_ascending (l : list A) : list A := fold_right insert [] l.

(** [sorted(l, key=key, reverse=reverse)]: with [reverse] the list is
    reversed, sorted and reversed again, which keeps items of equal key
    in their original order. *)
Definition sorted (reverse : bool) (l : list A) : list A :=
  if reverse then rev (sort_ascending (rev l)) else sort_ascending l.
End Sorting.

End Py.

Notation "x <- c ;; k" := (Py.bind c (fun x => k))
(at level 61, c at next level, right associativity).

(** ** chatbot/ai/recommendation.py *)

Module RecommendationEngine.
Import Py.

Section Scoring.
Context {rt : Runtime}.

(** [_to_float(value, default)]: [float(value)], or [default] when the
    conversion raises [TypeError] or [ValueError]. *)
Definition _to_float (v : value) (default : Q) : result Q :=
  match float_ v with
  | Ok x => Ok x
  | Raise TypeError | Raise ValueError => Ok default
  | Raise e => Raise e
  end.

(** The two operands of the price block:
    [budget = _to_float(user_prefs.get('budget_max'))] and
    [price = _to_float(hotel.get('price') or hotel.get('price_per_night'))]. *)
Definition budget_of (user_prefs : dict) : result Q :=
  _to_float (get user_prefs "budget_max") 0.0.

Definition price_of (hotel : dict) : result Q :=
  _to_float (or_ (get hotel "price") (get hotel "price_per_night")) 0.0.

(** Price scoring (30): what the block adds to [score]. *)
Definition price_points (budget price : Q) : Q :=
  if Qltb 0 budget then
    if Qleb price budget then 30 * (1 - (price / budget))
    else - 5
  else 15.

Definition price_score (user_prefs hotel : dict) : result Q :=
  budget <- budget_of user_prefs ;;
  price <- price_of hotel ;;
  Ok (price_points budget price).

(** Rating scoring (25):
    [rating_raw = _to_float(hotel.get('rating') or hotel.get('rating_raw'))],
    [rating10 = max(0.0, min(rating_raw * 2.0, 10.0))], and the block adds
    [rating10 * 2.5]. *)
Definition rating_raw_of (hotel : dict) : result Q :=
  _to_float (or_ (get hotel "rating") (get hotel "rating_raw")) 0.0.

Definition rating10_of_raw (rating_raw : Q) : Q :=
  max_ 0.0 (min_ (rating_raw * 2.0) 10.0).

Definition rating_points (rating_raw : Q) : Q :=
  rating10_of_raw rating_raw * 2.5.

Definition rating10_of (hotel : dict) : result Q :=
  rating_raw <- rating_raw_of hotel ;;
  Ok (rating10_of_raw rating_raw).


(** Amenities scoring (20). *)
Definition amenities_points (hotel_amenities pref_amenities : list value) : Q :=
  if nonempty pref_amenities && nonempty hotel_amenities then
    let match_count := length (set_inter hotel_amenities pref_amenities) in
    let total_wanted := length pref_amenities in
    (inject_Z (Z.of_nat match_count) / inject_Z (Z.of_nat total_wanted)) * 20
  else 10.

Definition amenities_score (user_prefs hotel : dict) : result Q :=
  hotel_amenities <- set_ (or_ (get hotel "amenities") (VList [])) ;;
  pref_amenities <- set_ (or_ (get user_prefs "preferences") (VList [])) ;;
  Ok (amenities_points hotel_amenities pref_amenities).

(** Quality bonus (10), as a function of [rating10]. *)
Definition quality_bonus (rating10 : Q) : Q :=
  if Qleb 9.0 rating10 then 10
  else if Qleb 8.5 rating10 then 7
  else if Qleb 8.0 rating10 then 3
  else 0.

(** Review count bonus (15).  The quality-bonus statements sit at the
    indentation of the body of the final [else], after [score += 5]: they
    run only in that branch. *)
Definition review_count_of (hotel : dict) : result Z :=
  int_ (or_ (or_ (get hotel "rating_count") (get hotel "total_rating_count")) (VInt 0)).

Definition review_points (review_count : Z) (rating10 : Q) : Q :=
  if (100 <? review_count)%Z then 15
  else if (50 <? review_count)%Z then 10
  else 5 + quality_bonus rating10.

Definition review_score (hotel : dict) (rating10 : Q) : result Q :=
  review_count <- review_count_of hotel ;;
  Ok (review_points review_count rating10).

(** [calculate_score(hotel)], the closure of [rank_hotels] over [user_prefs]. *)
Definition calculate_score (user_prefs hotel : dict) : result Q :=
  let score := 0.0 in
  p <- price_score user_prefs hotel ;;
  let score := score + p in
  rating10 <- rating10_of hotel ;;
  let score := score + rating10 * 2.5 in
  a <- amenities_score user_prefs hotel ;;
  let score := score + a in
  r <- review_score hotel rating10 ;;
  let score := score + r in
  Ok score.

(** The loop of [rank_hotels]: each offer is copied and the copy receives its
    score under the key ['score']. *)
Definition annotate (hotel : dict) (score : Q) : dict :=
  setitem "score" (VFloat score) hotel.

Fixpoint score_hotels (user_prefs : dict) (hotels : list dict) : result (list dict) :=
  match hotels with
  | [] => Ok []
  | hotel :: rest =>
      let h := hotel in
      s <- calculate_score user_prefs h ;;
      scored_hotels <- score_hotels user_prefs rest ;;
      Ok (annotate h s :: scored_hotels)
  end.

(** The sort key [lambda h: h.get('score', 0.0)]; after the loop the item
    under ['score'] is the float just stored. *)
Definition score_key (h : dict) : Q :=
  match as_number (get_default h "score" (VFloat 0.0)) with
  | Some x => x
  | None => 0.0
  end.

Definition rank_hotels (hotels : list dict) (user_prefs : dict) : result (list dict) :=
  scored_hotels <- score_hotels user_prefs hotels ;;
  Ok (sorted score_key true scored_hotels).

End Scoring.
End RecommendationEngine.

(** ** chatbot/views.py: the turn handled by [ChatbotViewSet.send_message] *)

Module Views.
Import Py.

(** Modelled from the spec: the class [UserSearchPreference] is declared in
    [chatbot/models.py], which is not among the sources.  Section 3 of the
    specification gives it the six fields that [send_message] assigns; an
    attribute holds any value, as a Python attribute does before it is saved. *)
Record UserSearchPreference : Type := {
  location : value;
  check_in : value;
  check_out : value;
  guests : value;
  budget_max : value;
  preferences : value
}.

(** Attribute assignment, [prefs.field = v]. *)
Definition set_location (v : value) (p : UserSearchPreference) :=
  {| location := v; check_in := check_in p; check_out := check_out p;
     guests := guests p; budget_max := budget_max p; preferences := preferences p |}.

Definition set_check_in (v : value) (p : UserSearchPreference) :=
  {| location := location p; check_in := v; check_out := check_out p;
     guests := guests p; budget_max := budget_max p; preferences := preferences p |}.

Definition set_check_out (v : value) (p : UserSearchPreference) :=
  {| location := location p; check_in := check_in p; check_out := v;
     guests := guests p; budget_max := budget_max p; preferences := preferences p |}.

Definition set_guests (v : value) (p : UserSearchPreference) :=
  {| location := location p; check_in := check_in p; check_out := check_out p;
     guests := v; budget_max := budget_max p; preferences := preferences p |}.

Definition set_budget_max (v : value) (p : UserSearchPreference) :=
  {| location := location p; check_in := check_in p; check_out := check_out p;
     guests := guests p; budget_max := v; preferences := preferences p |}.

Definition set_preferences (v : value) (p : UserSearchPreference) :=
  {| location := location p; check_in := check_in p; check_out := check_out p;
     guests := guests p; budget_max := budget_max p; preferences := v |}.

(** [v[k]] where [v] was just read with [v.get(k)]. *)
Definition item (v : value) (k : string) : result value :=
  match v with
  | VDict d => getitem d k
  | _ => Raise TypeError
  end.

Section Turn.
Context {rt : Runtime}.

(** [intent = intent_data.get('intent', 'help')]; [orchestrate_response] in
    [llm_engine.py] reads the intent with the same expression. *)
Definition turn_intent (intent_data : value) : result value :=
  call_get intent_data "intent" (VStr "help").

(** The condition under which the turn searches:
    [intent == 'search' and prefs.location and prefs.check_in and prefs.check_out]. *)
Definition searches (intent : value) (prefs : UserSearchPreference) : bool :=
  eqb intent (VStr "search") && truthy (location prefs)
  && truthy (check_in prefs) && truthy (check_out prefs).

(** [if intent_data.get(k): prefs.field = intent_data[k]]. *)
Definition assign_if_truthy (intent_data : value) (k : string)
    (assign : value -> UserSearchPreference -> UserSearchPreference)
    (prefs : UserSearchPreference) : result UserSearchPreference :=
  x <- call_get intent_data k VNone ;;
  if truthy x then
    v <- item intent_data k ;;
    Ok (assign v prefs)
  else Ok prefs.

(** The [guests] step: a value that [int] rejects leaves the field as it was. *)
Definition assign_guests (intent_data : value) (prefs : UserSearchPreference)
    : result UserSearchPreference :=
  x <- call_get intent_data "guests" VNone ;;
  if truthy x then
    match (v <- item intent_data "guests" ;; int_ v) with
    | Ok n => Ok (set_guests (VInt n) prefs)
    | Raise ValueError | Raise TypeError => Ok prefs
    | Raise e => Raise e
    end
  else Ok prefs.

(** The [budget_max] step: a value that [float] rejects stores [None]. *)
Definition assign_budget_max (intent_data : value) (prefs : UserSearchPreference)
    : result UserSearchPreference :=
  x <- call_get intent_data "budget_max" VNone ;;
  if is_not_none x then
    match (v <- item intent_data "budget_max" ;; float_ v) with
    | Ok b => Ok (set_budget_max (VFloat b) prefs)
    | Raise ValueError | Raise TypeError => Ok (set_budget_max VNone prefs)
    | Raise e => Raise e
    end
  else Ok prefs.

(** "Update user preferences (if present)": the six steps in the order of
    [send_message], up to [prefs.save()]. *)
Definition update_preferences (intent_data : value) (prefs : UserSearchPreference)
    : result UserSearchPreference :=
  prefs <- assign_if_truthy intent_data "location" set_location prefs ;;
  prefs <- assign_if_truthy intent_data "check_in" set_check_in prefs ;;
  prefs <- assign_if_truthy intent_data "check_out" set_check_out prefs ;;
  prefs <- assign_guests intent_data prefs ;;
  prefs <- assign_budget_max intent_data prefs ;;
  prefs <- assign_if_truthy intent_data "preferences" set_preferences prefs ;;
  Ok prefs.

End Turn.


End Views.

(** ** chatbot/ai/llm_engine.py *)

Module ChatbotAIEngine.
Import Py.

(** What [requests.post] hands back: the status, and the outcome of
    [resp.json()]. *)
Record response : Type := {
  status_code : Z;
  json : result value
}.

(** The completion call either answers, or raises. *)
Inductive post_outcome : Type :=
| Responded (resp : response)
| Raised (e : exn).

Definition help_record (fields : dict) : value :=
  VDict (("intent", VStr "help") :: fields).

Definition newline : string := String (ascii_of_nat 10) EmptyString.

Section Engine.
Context {rt : Runtime}.

(** [choices[0].get('message', {}).get('content', '').strip()]. *)
Definition strip_ (v : value) : result string :=
  match v with
  | VStr s => Ok (str_strip s)
  | _ => Raise AttributeError
  end.

Definition content_of (choices : value) : result string :=
  c <- subscript choices 0 ;;
  m <- call_get c "message" (VDict []) ;;
  t <- call_get m "content" (VStr "") ;;
  strip_ t.

(** The inner [try]: on any exception the text is [str(choices[0])]. *)
Definition response_text_of (choices : value) : result string :=
  match content_of choices with
  | Ok s => Ok s
  | Raise _ => c <- subscript choices 0 ;; Ok (str_of c)
  end.

(** The body of the outer [try] of [parse_user_intent]. *)
Definition read_completion (post : post_outcome) : result value :=
  resp <- match post with
          | Responded resp => Ok resp
          | Raised e => Raise e
          end ;;
  if negb (status_code resp =? 200)%Z then
    Ok (help_record [("error", VStr "API Error"); ("status", VInt (status_code resp))])
  else
    result_ <- json resp ;;
    c <- call_get result_ "choices" VNone ;;
    let choices := or_ c (VList []) in
    if negb (truthy choices) then
      Ok (help_record [("error", VStr "No choices in response")])
    else
      response_text <- response_text_of choices ;;
      match json_loads response_text with
      | Some parsed => Ok parsed
      | None => Ok (help_record [("error", VStr "Parse Error"); ("raw", VStr response_text)])
      end.

(** [parse_user_intent]: [api_key] is the configured key, [post] the outcome
    of the completion call for the message. *)
Definition parse_user_intent (api_key : value) (post : post_outcome) : value :=
  if negb (truthy api_key) then
    help_record [("error", VStr "API key not configured")]
  else
    match read_completion post with
    | Ok record => record
    | Raise Timeout => help_record [("error", VStr "Timeout")]
    | Raise e => help_record [("error", VStr (exn_text e))]
    end.

(** The lines [generate_response] writes for one recommendation. *)
Definition hotel_lines (i : nat) (hotel : dict) : list string :=
  let name := get_default hotel "name" (VStr "—") in
  let rating := get_default hotel "rating" (VStr "N/A") in
  let price := get_default hotel "price_per_night" (VStr "N/A") in
  let location := get_default hotel "location" (VStr "—") in
  let url := or_ (or_ (get hotel "affiliate_url") (get hotel "url")) (VStr "") in
  [ (str_of (VInt (Z.of_nat i)) ++ ". " ++ str_of name ++ " — ⭐ " ++ str_of rating ++ "/10")%string;
    ("    " ++ str_of price ++ "€/nuit — " ++ str_of location)%string ]
  ++ (if truthy url then [("    Réserver : " ++ str_of url)%string] else [])
  ++ [ EmptyString ].

Fixpoint enumerate_lines (i : nat) (hotels : list dict) : list string :=
  match hotels with
  | [] => []
  | hotel :: rest => hotel_lines i hotel ++ enumerate_lines (S i) rest
  end.

Definition help_text : string :=
  "Je peux vous aider à trouver les meilleurs hôtels ! Indiquez vos dates et votre destination.".

Definition refine_text : string :=
  "Dites-moi comment affiner votre recherche : budget, équipements, ou type de chambre.".

Definition default_text : string :=
  "Je suis spécialisée dans les recommandations d'hôtels. Comment puis-je vous aider ?".

Definition no_results_text : string :=
  "Je n'ai pas trouvé de résultats. Vérifiez les dates et le lieu.".

(** [generate_response(intent, recommendations)]. *)
Definition generate_response (intent : value) (recommendations : list dict) : string :=
  if eqb intent (VStr "search") then
    if negb (nonempty recommendations) then no_results_text
    else
      let lines :=
        ("J'ai trouvé " ++ str_of (VInt (Z.of_nat (length recommendations)))
           ++ " excellents hôtels ! Voici les meilleurs :")%string
        :: enumerate_lines 1 (firstn 5 recommendations) in
      String.concat newline lines
  else if eqb intent (VStr "help") then help_text
  else if mem intent [VStr "refine"; VStr "re ne"; VStr "rene"] then refine_text
  else default_text.

End Engine.



End ChatbotAIEngine.

(** ** chatbot/ai/makcorps_client.py *)

Module MakcorpsClient.
Import Py.

(** A request to the provider: the path and the query parameters. *)
Definition request : Type := string * dict.
Definition trace : Type := list request.

Record client : Type := {
  base_url : string;
  api_key : value;
  timeout : Z
}.

(** A method of the client runs against the requests sent so far: it returns
    or raises, and leaves the extended list of requests. *)
Definition io (A : Type) : Type := trace -> result A * trace.

Definition io_ret {A} (a : A) : io A := fun tr => (Ok a, tr).

Definition io_lift {A} (c : result A) : io A := fun tr => (c, tr).

Definition io_bind {A B} (c : io A) (k : A -> io B) : io B :=
  fun tr =>
    match c tr with
    | (Ok a, tr') => k a tr'
    | (Raise e, tr') => (Raise e, tr')
    end.

(** [try: return c  except Exception: pass] followed by [rest]. *)
Definition io_try {A} (c : io A) (rest : io A) : io A :=
  fun tr =>
    match c tr with
    | (Ok a, tr') => (Ok a, tr')
    | (Raise _, tr') => rest tr'
    end.

Notation "x <<- c ;; k" := (io_bind c (fun x => k))
  (at level 61, c at next level, right associativity).

Fixpoint map_result {A B} (f : A -> result B) (l : list A) : result (list B) :=
  match l with
  | [] => Ok []
  | x :: rest =>
      y <- f x ;;
      ys <- map_result f rest ;;
      Ok (y :: ys)
  end.

Definition price_keys : list string :=
  ["price1"; "price2"; "price3"; "price4"; "price5";
   "price6"; "price7"; "price8"; "price9"; "price10"].

(** The first truthy [item.get(k)], in the order of [keys]; [None] if none. *)
Fixpoint first_truthy (item : dict) (keys : list string) : value :=
  match keys with
  | [] => VNone
  | k :: rest =>
      let p := get item k in
      if truthy p then p else first_truthy item rest
  end.

(** [re.sub(r"[^0-9,\.]", "", p).replace(',', '.')]. *)
Definition price_char (c : ascii) : bool :=
  let n := nat_of_ascii c in
  ((48 <=? n) && (n <=? 57))%nat || Ascii.eqb c "," || Ascii.eqb c ".".

Fixpoint clean_price (p : string) : string :=
  match p with
  | EmptyString => EmptyString
  | String c rest =>
      if price_char c
      then String (if Ascii.eqb c "," then "."%char else c) (clean_price rest)
      else clean_price rest
  end.

Section Client.
Context {rt : Runtime}.

(** What the provider answers to a request, given the requests before it:
    the decoded body, or [None] when [_get] logs a failure. *)
Variable provider : trace -> request -> value.
Variable self : client.

Definition _get (path : string) (params : dict) : io value :=
  fun tr =>
    let params := setitem "api_key" (api_key self) params in
    (Ok (provider tr (path, params)), tr ++ [(path, params)]).

Definition mapping (name : value) : io (list value) :=
  data <<- _get "/mapping" [("name", name)] ;;
  if negb (truthy data) then io_ret []
  else io_ret (match data with VList l => l | _ => [] end).

(** [it.get('value') or it.get('document_id')]. *)
Definition id_of (it : value) : result value :=
  v <- call_get it "value" VNone ;;
  if truthy v then Ok v else call_get it "document_id" VNone.

Definition is_geo (it : value) : result bool :=
  t <- call_get it "type" VNone ;;
  if eqb t (VStr "GEO") then Ok true
  else
    dt <- call_get it "data_type" VNone ;;
    Ok (eqb dt (VStr "LOCATION")).

Definition is_hotel (it : value) : result bool :=
  t <- call_get it "type" VNone ;;
  Ok (eqb t (VStr "HOTEL")).

(** [for it in items: if test(it): return id_of(it)]. *)
Fixpoint first_match (test : value -> result bool) (items : list value)
    : result (option value) :=
  match items with
  | [] => Ok None
  | it :: rest =>
      b <- test it ;;
      if b then (r <- id_of it ;; Ok (Some r))
      else first_match test rest
  end.

Definition choose_id (items : list value) : result value :=
  if negb (nonempty items) then Ok VNone
  else
    g <- first_match is_geo items ;;
    match g with
    | Some r => Ok r
    | None =>
        h <- first_match is_hotel items ;;
        match h with
        | Some r => Ok r
        | None =>
            first <- subscript (VList items) 0 ;;
            id_of first
        end
    end.

Definition _choose_id_from_mapping (name : value) : io value :=
  items <<- mapping name ;;
  io_lift (choose_id items).

(** The body of the loop of [search_by_city_id] for an item that is a
    dictionary. *)
Definition normalize_city_item (item : dict) : dict :=
  let price := first_truthy item price_keys in
  let reviews := or_ (get item "reviews") (VDict []) in
  let rating := match reviews with VDict r => get r "rating" | _ => VNone end in
  let price_value :=
    if truthy price then
      let p := str_of price in
      let p_clean := clean_price p in
      match float_ (VStr p_clean) with
      | Ok x => VFloat x
      | Raise _ => VNone
      end
    else VNone in
  [ ("vendor_name", get item "name");
    ("hotel_id", or_ (or_ (get item "hotelId") (get item "value")) (get item "document_id"));
    ("price_str", price);
    ("price", price_value);
    ("total_price", VNone);
    ("rating", rating);
    ("rating_raw", rating);
    ("location", or_ (or_ (get item "parent_name") (get item "location")) VNone);
    ("telephone", get item "telephone");
    ("affiliate_url", VNone);
    ("raw", VDict item) ].

(** Entries that are not dictionaries are skipped. *)
Fixpoint normalize_city_items (items : list value) : list dict :=
  match items with
  | [] => []
  | VDict item :: rest => normalize_city_item item :: normalize_city_items rest
  | _ :: rest => normalize_city_items rest
  end.

Definition city_params (cityid checkin checkout adults rooms currency pagination : value)
    : dict :=
  [ ("cityid", cityid); ("checkin", checkin); ("checkout", checkout);
    ("adults", adults); ("rooms", rooms); ("cur", currency);
    ("pagination", pagination) ].

Definition search_by_city_id
    (cityid checkin checkout adults rooms currency pagination : value)
    : io (list dict) :=
  data <<- _get "/city"
             (city_params cityid checkin checkout adults rooms currency pagination) ;;
  if negb (truthy data) then io_ret []
  else
    items <<- io_lift (iter data) ;;
    io_ret (normalize_city_items items).

(** One room of the [/booking] answer. *)
Definition room_offer (location hotel_meta room : value) : result dict :=
  name <- call_get hotel_meta "name" VNone ;;
  hotelid <- call_get hotel_meta "hotelid" VNone ;;
  price <- call_get room "price" VNone ;;
  address <- call_get hotel_meta "address" VNone ;;
  Ok [ ("vendor_name", or_ name location);
       ("hotel_id", or_ hotelid VNone);
       ("price", price);
       ("total_price", VNone);
       ("rating", VNone);
       ("location", address);
       ("affiliate_url", VNone);
       ("raw", room) ].

Definition booking_rooms (location data : value) : result (list dict) :=
  match data with
  | VList (first :: more) =>
      let rooms := match first with VList r => r | _ => [] end in
      let hotel_meta := match more with m :: _ => m | [] => VDict [] end in
      map_result (room_offer location hotel_meta) rooms
  | _ => Ok []
  end.

Definition booking_params (location check_in check_out guests : value) : dict :=
  [ ("country", VStr ""); ("hotelid", location); ("checkin", check_in);
    ("checkout", check_out); ("currency", VStr "EUR"); ("adults", guests);
    ("rooms", VInt 1) ].

(** The part of [search_hotels] after the first [try]. *)
Definition search_by_name (location check_in check_out guests : value) : io (list dict) :=
  city_id <<- _choose_id_from_mapping location ;;
  if truthy city_id then
    search_by_city_id city_id check_in check_out guests (VInt 1) (VStr "EUR") (VInt 0)
  else
    data <<- _get "/booking" (booking_params location check_in check_out guests) ;;
    if truthy data then io_lift (booking_rooms location data)
    else io_ret [].

Definition search_hotels (location check_in check_out guests : value) : io (list dict) :=
  io_try
    (val <<- io_lift (int_ location) ;;
     search_by_city_id (VInt val) check_in check_out guests (VInt 1) (VStr "EUR") (VInt 0))
    (search_by_name location check_in check_out guests).

End Client.

(** The paths a run has requested. *)
Definition paths (tr : trace) : list string := map fst tr.

End MakcorpsClient.

(** ** A runtime and inputs for the worked examples *)

Module Examples.
Import Py.

Definition digit_of (c : ascii) : option Z :=
  let n := nat_of_ascii c in
  if ((48 <=? n) && (n <=? 57))%nat then Some (Z.of_nat (n - 48)) else None.

Fixpoint digits_value (acc : Z) (s : string) : option Z :=
  match s with
  | EmptyString => Some acc
  | String c rest =>
      match digit_of c with
      | Some d => digits_value (10 * acc + d) rest
      | None => None
      end
  end.

(** Decimal numerals: digits, with an optional leading minus sign. *)
Definition numeral (s : string) : option Z :=
  match s with
  | EmptyString => None
  | String c rest =>
      if Ascii.eqb c "-" then
        match rest with
        | EmptyString => None
        | _ => option_map Z.opp (digits_value 0 rest)
        end
      else digits_value 0 s
  end.

Definition exn_name (e : exn) : string :=
  match e with
  | TypeError => "TypeError"
  | ValueError => "ValueError"
  | AttributeError => "AttributeError"
  | KeyError => "KeyError"
  | IndexError => "IndexError"
  | Timeout => "Timeout"
  | RequestException => "RequestException"
  end.

(** A runtime that is enough for the examples below: numbers are written as
    decimal numerals, [str] is only asked for strings, text has no blanks
    around it, and the one JSON text that is read back is the empty object. *)
Definition runtime : Runtime := {|
  float_of_str := fun s => option_map inject_Z (numeral s);
  int_of_str := numeral;
  str_of := fun v => match v with VStr s => s | _ => EmptyString end;
  json_loads := fun s => if String.eqb s "{}" then Some (VDict []) else None;
  str_strip := fun s => s;
  exn_text := exn_name
|}.

(** An offer with a 4.5 rating (9.0 on the ten-point scale) and 150 reviews,
    and the same offer with 10 reviews. *)
Definition acclaimed_hotel : dict :=
  [("name", VStr "Riad Atlas"); ("rating", VFloat 4.5); ("rating_count", VInt 150)].

Definition obscure_hotel : dict :=
  [("name", VStr "Riad Atlas"); ("rating", VFloat 4.5); ("rating_count", VInt 10)].

(** An offer whose review count is not a number. *)
Definition unreadable_hotel : dict :=
  [("name", VStr "Dar Zitoun"); ("price", VInt 80); ("rating_count", VStr "many")].


(** A preference record with a budget of 120 and two wanted amenities. *)
Definition wifi_pool_prefs : dict :=
  [("budget_max", VInt 120); ("preferences", VList [VStr "wifi"; VStr "pool"])].

(** The two offers of the example of section 8 of the specification. *)
Definition offer_a : dict := [("price", VInt 100); ("rating", VInt 4); ("rating_count", VInt 150)].
Definition offer_b : dict := [("price", VInt 90); ("rating", VInt 4); ("rating_count", VInt 10)].
Definition budget_120 : dict := [("budget_max", VInt 120); ("preferences", VList [])].

(** Stored preferences of a conversation, and turns that touch them. *)
Definition stored_prefs : Views.UserSearchPreference := {|
  Views.location := VStr "Marrakech";
  Views.check_in := VStr "2025-03-01";
  Views.check_out := VStr "2025-03-05";
  Views.guests := VInt 2;
  Views.budget_max := VFloat 100;
  Views.preferences := VList [VStr "wifi"]
|}.


Definition refining_fields : dict :=
  [("intent", VStr "refine"); ("location", VNone); ("budget_max", VInt 80);
   ("preferences", VList [VStr "pool"])].
Definition refining_turn : value := VDict refining_fields.







(** Providers: one that never answers, one that knows a city, one whose
    name lookup answers a list of names, and one whose city search answers a
    number. *)
Definition makcorps : MakcorpsClient.client := {|
  MakcorpsClient.base_url := "https://api.makcorps.com";
  MakcorpsClient.api_key := VStr "k";
  MakcorpsClient.timeout := 10
|}.

Definition silent_provider : MakcorpsClient.trace -> MakcorpsClient.request -> value :=
  fun _ _ => VNone.

Definition city_body : value :=
  VList [ VDict [("name", VStr "Riad Atlas"); ("hotelId", VInt 7);
                 ("price1", VStr "120"); ("reviews", VDict [("rating", VFloat 4.5)])];
          VList [VDict [("totalHotelCount", VInt 1)]] ].

Definition mapping_body : value :=
  VList [ VDict [("type", VStr "HOTEL"); ("value", VInt 11)];
          VDict [("type", VStr "GEO"); ("value", VInt 482)] ].

Definition city_provider : MakcorpsClient.trace -> MakcorpsClient.request -> value :=
  fun _ req =>
    if String.eqb (fst req) "/city" then city_body
    else if String.eqb (fst req) "/mapping" then mapping_body
    else VNone.

Definition garbled_provider : MakcorpsClient.trace -> MakcorpsClient.request -> value :=
  fun _ req =>
    if String.eqb (fst req) "/mapping" then VList [VStr "Marrakech, Morocco"]
    else VNone.

Definition counting_provider : MakcorpsClient.trace -> MakcorpsClient.request -> value :=
  fun _ req => if String.eqb (fst req) "/city" then VInt 7 else VNone.

End Examples.

(** ** chatbot/ai/makcorps_client.py: the hotel search and the plain endpoints *)

Module MakcorpsHotel.
Import Py MakcorpsClient.

(** [k.lower().startswith(p)] for a prefix [p] of lower-case letters; only
    the letters A to Z can become one of them. *)
Definition lower_char (c : ascii) : ascii :=
  let n := nat_of_ascii c in
  if ((65 <=? n) && (n <=? 90))%nat then ascii_of_nat (n + 32) else c.

Fixpoint lower (s : string) : string :=
  match s with
  | EmptyString => EmptyString
  | String c rest => String (lower_char c) (lower rest)
  end.

Definition lower_startswith (p k : string) : bool := String.prefix p (lower k).

(** [k in v] for a string [k]: a key of a dictionary, an element of a list, a
    substring of a string. *)
Definition contains (v : value) (k : string) : result bool :=
  match v with
  | VDict d => Ok (match lookup k d with Some _ => true | None => false end)
  | VList l => Ok (mem (VStr k) l)
  | VStr s => Ok (match String.index 0 k s with Some _ => true | None => false end)
  | _ => Raise TypeError
  end.

(** [len(v)]. *)
Definition len_ (v : value) : result nat :=
  match v with
  | VList l => Ok (length l)
  | VStr s => Ok (String.length s)
  | VDict d => Ok (length d)
  | _ => Raise TypeError
  end.

(** [v.items()]. *)
Definition items_ (v : value) : result dict :=
  match v with
  | VDict d => Ok d
  | _ => Raise AttributeError
  end.

Definition is_str (v : value) : bool :=
  match v with VStr _ => true | _ => false end.

(** The keys [price1/vendor1] to [price20/vendor20], in the order of the loop. *)
Definition numbered_keys : list (string * string) :=
  [("price1", "vendor1"); ("price2", "vendor2"); ("price3", "vendor3");
   ("price4", "vendor4"); ("price5", "vendor5"); ("price6", "vendor6");
   ("price7", "vendor7"); ("price8", "vendor8"); ("price9", "vendor9");
   ("price10", "vendor10"); ("price11", "vendor11"); ("price12", "vendor12");
   ("price13", "vendor13"); ("price14", "vendor14"); ("price15", "vendor15");
   ("price16", "vendor16"); ("price17", "vendor17"); ("price18", "vendor18");
   ("price19", "vendor19"); ("price20", "vendor20")].

(** The loop over the numbered keys: the first [price_key] that is in [v]
    with a truthy value gives the price and the vendor name; [(None, None)]
    when there is none. *)
Fixpoint numbered_price (v : value) (keys : list (string * string))
    : result (value * value) :=
  match keys with
  | [] => Ok (VNone, VNone)
  | (price_key, vendor_key) :: rest =>
      present <- contains v price_key ;;
      hit <- (if present then p <- call_get v price_key VNone ;; Ok (truthy p)
              else Ok false) ;;
      if hit then
        price <- call_get v price_key VNone ;;
        name <- call_get v vendor_key VNone ;;
        Ok (price, or_ name VNone)
      else numbered_price v rest
  end.

(** [for k, val in items: if test(k, val): return val]. *)
Fixpoint first_item (test : string -> value -> bool) (items : dict) : option value :=
  match items with
  | [] => None
  | (k, val) :: rest => if test k val then Some val else first_item test rest
  end.

(** The body of the loop over the vendors. *)
Definition vendor_result (v : value) : result dict :=
  found <- numbered_price v numbered_keys ;;
  let price := fst found in
  let vendor_name := snd found in
  price <- (if negb (truthy price) then
              items <- items_ v ;;
              Ok match first_item
                         (fun k val => lower_startswith "price" k && truthy val)
                         items with
                 | Some val => val
                 | None => price
                 end
            else Ok price) ;;
  vendor_name <- (if negb (truthy vendor_name) then
                    items <- items_ v ;;
                    Ok match first_item
                               (fun k val => lower_startswith "vendor" k && is_str val)
                               items with
                       | Some val => val
                       | None => vendor_name
                       end
                  else Ok vendor_name) ;;
  Ok [("vendor", vendor_name); ("price", price); ("raw", v)].

(** "Map to normalized structure (single hotel)". *)
Definition normalize_vendor (hotelid : value) (r : dict) : dict :=
  [ ("vendor_name", get r "vendor");
    ("hotel_id", hotelid);
    ("price", get r "price");
    ("total_price", VNone);
    ("rating", VNone);
    ("location", VNone);
    ("affiliate_url", VNone);
    ("raw", get r "raw") ].

(** The part of [search_by_hotel_id] after the request. *)
Definition hotel_results (data : value) : result (list dict) :=
  let comparison :=
    match data with
    | VDict d => get d "comparison"
    | _ => VNone
    end in
  if truthy comparison then
    n <- len_ comparison ;;
    if (0 <? n)%nat then
      vendors <- subscript comparison 0 ;;
      vs <- iter vendors ;;
      map_result vendor_result vs
    else Ok []
  else Ok [].

Definition hotel_params (hotelid checkin checkout adults rooms currency : value)
    : dict :=
  [ ("hotelid", hotelid); ("checkin", checkin); ("checkout", checkout);
    ("adults", adults); ("rooms", rooms); ("currency", currency) ].

Section Client.
Variable provider : trace -> request -> value.
Variable self : client.

Definition search_by_hotel_id
    (hotelid checkin checkout adults rooms currency : value) : io (list dict) :=
  data <<- _get provider self "/hotel"
             (hotel_params hotelid checkin checkout adults rooms currency) ;;
  if negb (truthy data) then io_ret []
  else
    results <<- io_lift (hotel_results data) ;;
    io_ret (map (normalize_vendor hotelid) results).

(** [booking], [roomtype] and [expedia]: the answer of one request. *)
Definition booking
    (country hotelid checkin checkout currency kids adults rooms : value) : io value :=
  _get provider self "/booking"
    [ ("country", country); ("hotelid", hotelid); ("checkin", checkin);
      ("checkout", checkout); ("currency", currency); ("kids", kids);
      ("adults", adults); ("rooms", rooms) ].

Definition roomtype (hotelid checkin checkout adults rooms : value) : io value :=
  _get provider self "/roomtype"
    [ ("hotelid", hotelid); ("adults", adults); ("rooms", rooms);
      ("checkin", checkin); ("checkout", checkout) ].

Definition expedia (hotelid checkin checkout currency adults rooms : value) : io value :=
  _get provider self "/expedia"
    [ ("hotelid", hotelid); ("checkin", checkin); ("checkout", checkout);
      ("currency", currency); ("adults", adults); ("rooms", rooms) ].

End Client.
End MakcorpsHotel.

(** ** chatbot/ai/llm_engine.py: the Sanity lookup, the Makcorps reply and
    [orchestrate_response] *)

Module Orchestration.
Import Py ChatbotAIEngine MakcorpsClient MakcorpsHotel.

(** The settings [__init__] reads from the environment. *)
Record engine : Type := {
  api_key : value;
  sanity_project_id : value;
  sanity_token : value;
  makcorps_url : value;
  makcorps_key : value
}.

Definition outcome (post : post_outcome) : result response :=
  match post with
  | Responded resp => Ok resp
  | Raised e => Raise e
  end.

(** [data[key]] for a string [key]: only a dictionary is indexed by strings. *)
Definition subscript_key (v : value) (k : string) : result value :=
  match v with
  | VDict d => getitem d k
  | _ => Raise TypeError
  end.

(** [v[:5]], then iterated: the first five items of a list, the first five
    characters of a string.  (A dictionary cannot be sliced; which exception
    that raises depends on the version of Python, and nothing below depends
    on it.) *)
Definition first_five (v : value) : result (list value) :=
  match v with
  | VList l => Ok (firstn 5 l)
  | VStr s => Ok (map (fun c => VStr (String c EmptyString))
                      (firstn 5 (list_ascii_of_string s)))
  | _ => Raise TypeError
  end.

Definition quote : string := String (ascii_of_nat 34) EmptyString.

Definition no_makcorps_text : string := "Makcorps integration not configured.".
Definition makcorps_error_text : string :=
  "Désolé, l'API Makcorps a retourné une erreur.".
Definition network_error_text : string :=
  "Erreur réseau lors de la communication avec Makcorps.".

Section Engine.
Context {rt : Runtime}.

(** [json.dumps]. *)
Variable json_dumps : value -> string.

(** The services the engine calls: the completion for a message, the Sanity
    query endpoint for a query, the Makcorps endpoint for a prompt and a
    context. *)
Variable completion : string -> post_outcome.
Variable sanity : string -> post_outcome.
Variable makcorps_post : string -> value -> post_outcome.
Variable self : engine.

Definition query_sanity_groq (groq_query : string) : value :=
  if negb (truthy (sanity_project_id self)) then VList []
  else
    match (resp <- outcome (sanity groq_query) ;;
           if negb (status_code resp =? 200)%Z then Ok (VList [])
           else
             payload <- json resp ;;
             r <- call_get payload "result" VNone ;;
             Ok (or_ r (VList []))) with
    | Ok v => v
    | Raise _ => VList []
    end.

(** [for key in (...): if key in data: return data[key]], then
    [return json.dumps(data)]. *)
Fixpoint first_key (data : value) (keys : list string) : result value :=
  match keys with
  | [] => Ok (VStr (json_dumps data))
  | key :: rest =>
      present <- contains data key ;;
      if present then subscript_key data key
      else first_key data rest
  end.

Definition call_makcorps (prompt : string) (context : value) : value :=
  if negb (truthy (makcorps_url self)) then VStr no_makcorps_text
  else
    match (resp <- outcome (makcorps_post prompt context) ;;
           if negb ((status_code resp =? 200)%Z || (status_code resp =? 201)%Z)
           then Ok (VStr makcorps_error_text)
           else
             data <- json resp ;;
             first_key data ["reply"; "text"; "message"; "output"]) with
    | Ok v => v
    | Raise _ => VStr network_error_text
    end.

(** The query for the hotels of a city. *)
Definition groq_query (location : value) : string :=
  ("*[_type == " ++ quote ++ "hotel" ++ quote ++ " && city match " ++ quote
   ++ str_of location ++ "*" ++ quote
   ++ "]{_id, name, city, price_per_night, rating, " ++ quote ++ "images" ++ quote
   ++ ": images[].asset->url}")%string.

(** One line of the summary of the prompt. *)
Definition summary_line (h : value) : result string :=
  n1 <- call_get h "name" VNone ;;
  name <- (if truthy n1 then Ok n1
           else n2 <- call_get h "title" VNone ;;
                if truthy n2 then Ok n2 else call_get h "_id" VNone) ;;
  c1 <- call_get h "city" VNone ;;
  city <- (if truthy c1 then Ok c1 else call_get h "location" VNone) ;;
  price <- call_get h "price_per_night" VNone ;;
  Ok ("- " ++ str_of name ++ " | " ++ str_of city ++ " | " ++ str_of price)%string.

Definition lookup_recommendations (intent parsed : value) : result value :=
  if eqb intent (VStr "search") then
    location <- call_get parsed "location" VNone ;;
    if truthy location then Ok (query_sanity_groq (groq_query location))
    else Ok (VList [])
  else Ok (VList []).

Definition prompt_summary (recommendations : value) : result (list string) :=
  if truthy recommendations then
    top <- first_five recommendations ;;
    summary_lines <- map_result summary_line top ;;
    Ok [("Recommendations:" ++ newline ++ String.concat newline summary_lines)%string]
  else Ok [].

Definition orchestrate_response (user_message : string) : result value :=
  let parsed := parse_user_intent (api_key self) (completion user_message) in
  intent <- call_get parsed "intent" (VStr "help") ;;
  recommendations <- lookup_recommendations intent parsed ;;
  summary <- prompt_summary recommendations ;;
  let prompt_parts :=
    ["You are Hotelix assistant."; ("User: " ++ user_message)%string] ++ summary in
  let final_prompt := String.concat (newline ++ newline)%string prompt_parts in
  let reply :=
    call_makcorps final_prompt (VDict [("intent", intent); ("parsed", parsed)]) in
  Ok (VDict [("reply", reply); ("intent", intent);
             ("recommendations", recommendations)]).

End Engine.
End Orchestration.

(** ** chatbot/views.py: the whole of [send_message] *)

Module SendMessage.
Import Py Views RecommendationEngine ChatbotAIEngine.

(** What the storage is asked to keep, and the search that is made. *)
Inductive event : Type :=
| MessageCreated (sender text : string) (intent : option value)
| PreferencesSaved (prefs : UserSearchPreference)
| Searched (location : value) (check_in check_out : string) (guests : value)
| RecommendationCreated (row : dict).

(** The collaborators of [send_message] that are not among the sources (the
    models of [chatbot/models.py] and the search client), taken as
    parameters: each call returns or raises. *)
Record services : Type := {
  create_message : string -> string -> option value -> result unit;
  save_preferences : UserSearchPreference -> result unit;
  search_hotels : value -> string -> string -> value -> result (list dict);
  create_recommendation : dict -> result unit
}.

(** [Response(body, status=status)]. *)
Inductive reply : Type := Response (body : dict) (status : Z).

(** A step of the turn runs against the events so far. *)
Definition turn (A : Type) : Type := list event -> result A * list event.

Definition ret {A} (a : A) : turn A := fun log => (Ok a, log).

Definition lift {A} (c : result A) : turn A := fun log => (c, log).

Definition then_ {A B} (c : turn A) (k : A -> turn B) : turn B :=
  fun log =>
    match c log with
    | (Ok a, log') => k a log'
    | (Raise e, log') => (Raise e, log')
    end.

(** [try: c  except Exception as e: handler(e)]. *)
Definition catch {A} (c : turn A) (handler : exn -> turn A) : turn A :=
  fun log =>
    match c log with
    | (Ok a, log') => (Ok a, log')
    | (Raise e, log') => handler e log'
    end.

(** A write is recorded when it succeeds; a search is recorded when it is
    made. *)
Definition write (ev : event) (outcome : result unit) : turn unit :=
  fun log =>
    match outcome with
    | Ok tt => (Ok tt, log ++ [ev])
    | Raise e => (Raise e, log)
    end.

Definition call {A} (ev : event) (outcome : result A) : turn A :=
  fun log => (outcome, log ++ [ev]).

Notation "x <~ c ;; k" := (then_ c (fun x => k))
  (at level 61, c at next level, right associativity).

Definition search_error_text : string := "Erreur lors de la recherche d'hôtels. ".

Section Turn.
Context {rt : Runtime}.
Variable svc : services.

(** The keyword arguments of [HotelRecommendation.objects.create]. *)
Definition recommendation_row (hotel : dict) : result dict :=
  total_rating_count <-
    int_ (or_ (or_ (get hotel "rating_count") (get hotel "total_rating_count"))
              (VInt 0)) ;;
  Ok [ ("booking_id", or_ (get hotel "id") (get hotel "booking_id"));
       ("name", get hotel "name");
       ("location", get hotel "location");
       ("price_per_night",
        or_ (or_ (get hotel "price") (get hotel "price_per_night")) (VInt 0));
       ("rating", get hotel "rating");
       ("total_rating_count", VInt total_rating_count);
       ("image_url", get hotel "image_url");
       ("affiliate_url",
        or_ (or_ (get hotel "affiliate_url") (get hotel "url")) (VStr ""));
       ("description", get_default hotel "description" (VStr ""));
       ("amenities", get_default hotel "amenities" (VList []));
       ("score", get_default hotel "score" (VInt 0)) ].

(** "Save top 10 recommendations". *)
Fixpoint save_recommendations (hotels : list dict) : turn unit :=
  match hotels with
  | [] => ret tt
  | hotel :: rest =>
      row <~ lift (recommendation_row hotel) ;;
      _ <~ write (RecommendationCreated row) (create_recommendation svc row) ;;
      save_recommendations rest
  end.

(** One entry of [payload_recs]. *)
Definition payload_rec (h : dict) : result value :=
  price <- float_ (or_ (or_ (get h "price") (get h "price_per_night")) (VInt 0)) ;;
  rating <- (if is_not_none (get h "rating") then
               r <- float_ (get h "rating") ;; Ok (VFloat r)
             else Ok VNone) ;;
  score <- float_ (get_default h "score" (VInt 0)) ;;
  Ok (VDict [ ("id", or_ (get h "id") (get h "booking_id"));
              ("name", get h "name");
              ("location", get h "location");
              ("price", VFloat price);
              ("rating", rating);
              ("amenities", get_default h "amenities" (VList []));
              ("image_url", get h "image_url");
              ("affiliate_url",
               or_ (or_ (get h "affiliate_url") (get h "url")) (VStr ""));
              ("score", VFloat score) ]).

(** [prefs_dict], the preferences handed to the ranking. *)
Definition prefs_dict (prefs : UserSearchPreference) : result dict :=
  budget <- (if truthy (budget_max prefs) then
               b <- float_ (budget_max prefs) ;; Ok (VFloat b)
             else Ok VNone) ;;
  Ok [("budget_max", budget); ("preferences", or_ (preferences prefs) (VList []))].

(** The body of the inner [try]: search, rank, save the first ten, keep the
    first five. *)
Definition search_and_rank (prefs : UserSearchPreference)
    : turn (list dict * string) :=
  hotels <~ call (Searched (location prefs) (str_of (check_in prefs))
                    (str_of (check_out prefs)) (guests prefs))
                 (search_hotels svc (location prefs) (str_of (check_in prefs))
                    (str_of (check_out prefs)) (guests prefs)) ;;
  if nonempty hotels then
    pd <~ lift (prefs_dict prefs) ;;
    ranked <~ lift (rank_hotels hotels pd) ;;
    _ <~ save_recommendations (firstn 10 ranked) ;;
    ret (firstn 5 ranked, EmptyString)
  else ret ([], EmptyString).

(** "Get recommendations": the recommendations and the error text, if any. *)
Definition get_recommendations (intent : value) (prefs : UserSearchPreference)
    : turn (list dict * string) :=
  if searches intent prefs then
    catch (search_and_rank prefs)
          (fun e => ret ([], (search_error_text ++ exn_text e)%string))
  else ret ([], EmptyString).

(** The body of the outer [try]. *)
Definition process_message (prefs : UserSearchPreference) (user_text : string)
    (intent_data : value) : turn reply :=
  _ <~ write (MessageCreated "user" user_text None)
             (create_message svc "user" user_text None) ;;
  intent <~ lift (turn_intent intent_data) ;;
  prefs <~ lift (update_preferences intent_data prefs) ;;
  _ <~ write (PreferencesSaved prefs) (save_preferences svc prefs) ;;
  found <~ get_recommendations intent prefs ;;
  let recommendations := fst found in
  let bot_response :=
    if String.eqb (snd found) EmptyString
    then generate_response intent recommendations
    else snd found in
  _ <~ write (MessageCreated "bot" bot_response (Some intent))
             (create_message svc "bot" bot_response (Some intent)) ;;
  payload_recs <~ lift (MakcorpsClient.map_result payload_rec recommendations) ;;
  ret (Response [ ("bot_response", VStr bot_response); ("intent", intent);
                  ("recommendations", VList payload_recs) ] 200).

(** [send_message] for a message text (already stripped), the preferences of
    the session if the session exists, and the intent record the extractor
    returned for the text. *)
Definition send_message (session : option UserSearchPreference)
    (user_text : string) (intent_data : value) : turn reply :=
  if String.eqb user_text EmptyString then
    ret (Response [("error", VStr "Message cannot be empty")] 400)
  else
    match session with
    | None => ret (Response [("error", VStr "Session not found")] 404)
    | Some prefs =>
        catch (process_message prefs user_text intent_data)
              (fun _ => ret (Response [("error", VStr "Failed to process message")] 400))
    end.

End Turn.



End SendMessage.

(** ** Inputs for the further examples *)

Module MoreExamples.
Import Py.

(** No price, the top rating, the wanted amenity, 500 reviews; and the
    preferences that want it. *)
Definition ideal_hotel : dict :=
  [("name", VStr "Riad Atlas"); ("rating", VInt 5);
   ("amenities", VList [VStr "wifi"]); ("rating_count", VInt 500)].

Definition wifi_prefs : dict :=
  [("budget_max", VInt 100); ("preferences", VList [VStr "wifi"])].

(** An offer whose price is a text that is not a number. *)
Definition unpriced_hotel : dict :=
  [("name", VStr "Dar Zitoun"); ("price", VStr "N/A"); ("rating", VInt 4)].

(** A runtime like the one of the examples above, whose [json.loads] reads
    the empty array and the empty object. *)
Definition listing_runtime : Runtime := {|
  float_of_str := fun s => option_map inject_Z (Examples.numeral s);
  int_of_str := Examples.numeral;
  str_of := fun v => match v with VStr s => s | _ => EmptyString end;
  json_loads := fun s =>
    if String.eqb s "[]" then Some (VList [])
    else if String.eqb s "{}" then Some (VDict [])
    else None;
  str_strip := fun s => s;
  exn_text := Examples.exn_name
|}.

(** Completions whose text is the empty array, and the empty object. *)
Definition choices_of (content : string) : value :=
  VList [VDict [("message", VDict [("content", VStr content)])]].

Definition array_body : dict := [("choices", choices_of "[]")].

Definition array_response : ChatbotAIEngine.response := {|
  ChatbotAIEngine.status_code := 200;
  ChatbotAIEngine.json := Ok (VDict array_body)
|}.

Definition object_body : dict := [("choices", choices_of "{}")].

Definition object_response : ChatbotAIEngine.response := {|
  ChatbotAIEngine.status_code := 200;
  ChatbotAIEngine.json := Ok (VDict object_body)
|}.

(** An engine with every setting present, and a Makcorps answer with two of
    the known keys. *)
Definition configured : Orchestration.engine := {|
  Orchestration.api_key := VStr "gsk";
  Orchestration.sanity_project_id := VStr "p1";
  Orchestration.sanity_token := VNone;
  Orchestration.makcorps_url := VStr "https://makcorps.example/reply";
  Orchestration.makcorps_key := VNone
|}.

Definition makcorps_reply_body : dict :=
  [("output", VStr "ignored"); ("text", VStr "Bonjour")].

Definition makcorps_response : ChatbotAIEngine.response := {|
  ChatbotAIEngine.status_code := 201;
  ChatbotAIEngine.json := Ok (VDict makcorps_reply_body)
|}.

Definition dumps_nothing : value -> string := fun _ => EmptyString.

(** Answers of the hotel search: two vendors, and a vendor list with a
    stray text. *)
Definition vendor_a : dict := [("vendor1", VStr "Booking.com"); ("price1", VStr "$120")].
Definition vendor_b : dict := [("Price_total", VInt 95); ("Vendor", VStr "Agoda")].

Definition hotel_body : dict :=
  [("comparison", VList [VList (map VDict [vendor_a; vendor_b]); VList []])].

Definition hotel_provider : MakcorpsClient.trace -> MakcorpsClient.request -> value :=
  fun _ _ => VDict hotel_body.

Definition odd_hotel_body : dict :=
  [("comparison", VList [VList [VDict vendor_a; VStr "taxes included"]])].

Definition odd_hotel_provider
    : MakcorpsClient.trace -> MakcorpsClient.request -> value :=
  fun _ _ => VDict odd_hotel_body.

(** Turns and collaborators for [send_message]. *)
Definition search_fields : dict := [("intent", VStr "search")].
Definition search_turn : value := VDict search_fields.

Definition accept_all (found : result (list dict)) : SendMessage.services := {|
  SendMessage.create_message := fun _ _ _ => Ok tt;
  SendMessage.save_preferences := fun _ => Ok tt;
  SendMessage.search_hotels := fun _ _ _ _ => found;
  SendMessage.create_recommendation := fun _ => Ok tt
|}.

Definition two_offers : list dict := [Examples.offer_b; Examples.offer_a].

End MoreExamples.

(** * Properties *)

(** ** The result monad *)

Module ResultFacts.
Import Py.

Lemma bind_ok {A B} (c : result A) (k : A -> result B) (b : B) :
  (x <- c ;; k x) = Ok b -> exists a, c = Ok a /\ k a = Ok b.
Proof.
  destruct c as [a | e]; simpl; intros H.
  - exists a. split; [reflexivity | exact H].
  - discriminate H.
Qed.

Lemma bind_raise {A B} (c : result A) (k : A -> result B) (e : exn) :
  c = Raise e -> (x <- c ;; k x) = Raise e.
Proof. intros ->. reflexivity. Qed.

Lemma Qltb_true (x y : Q) : Qltb x y = true <-> x < y.
Proof.
  unfold Qltb. rewrite negb_true_iff. split; intros H.
  - apply Qnot_le_lt. intros Hle. apply Qle_bool_iff in Hle. congruence.
  - destruct (Qle_bool y x) eqn:E; [|reflexivity].
    apply Qle_bool_iff in E. exfalso. exact (Qlt_not_le _ _ H E).
Qed.

Lemma Qltb_false (x y : Q) : Qltb x y = false <-> y <= x.
Proof.
  unfold Qltb. rewrite negb_false_iff. apply Qle_bool_iff.
Qed.

Lemma Qleb_true (x y : Q) : Qleb x y = true <-> x <= y.
Proof. apply Qle_bool_iff. Qed.

Lemma Qleb_false (x y : Q) : Qleb x y = false <-> y < x.
Proof.
  unfold Qleb. split; intros H.
  - apply Qnot_le_lt. intros Hle. apply Qle_bool_iff in Hle. congruence.
  - destruct (Qle_bool x y) eqn:E; [|reflexivity].
    apply Qle_bool_iff in E. exfalso. exact (Qlt_not_le _ _ H E).
Qed.

End ResultFacts.

(** ** The model of [sorted]: permutation, order and stability *)

Module SortFacts.
Import Py ResultFacts.

Section Facts.
Variables (A : Type) (key : A -> Q).

Local Abbreviation ascending := (fun a b : A => key a <= key b).
Local Abbreviation descending := (fun a b : A => key b <= key a).
Local Abbreviation has_key x := (fun a : A => Qeq_bool (key a) x).

Lemma insert_perm (x : A) (l : list A) : Permutation (insert key x l) (x :: l).
Proof.
  induction l as [| y ys IH]; simpl.
  - apply Permutation_refl.
  - destruct (Qleb (key x) (key y)).
    + apply Permutation_refl.
    + eapply perm_trans; [apply perm_skip, IH | apply perm_swap].
Qed.

Lemma sort_ascending_perm (l : list A) : Permutation (sort_ascending key l) l.
Proof.
  induction l as [| x xs IH]; simpl.
  - apply perm_nil.
  - eapply perm_trans; [apply insert_perm | apply perm_skip, IH].
Qed.

Lemma insert_sorted (x : A) (l : list A) :
  StronglySorted ascending l -> StronglySorted ascending (insert key x l).
Proof.
  induction l as [| y ys IH]; simpl; intros Hs.
  - constructor; constructor.
  - inversion Hs as [| ? ? Hys Hall]; subst.
    destruct (Qleb (key x) (key y)) eqn:E.
    + apply Qleb_true in E. constructor; [exact Hs |].
      constructor; [exact E |].
      eapply Forall_impl; [| exact Hall].
      simpl. intros a Ha. eapply Qle_trans; eassumption.
    + apply Qleb_false in E. constructor; [apply IH; exact Hys |].
      eapply Permutation_Forall; [apply Permutation_sym, insert_perm |].
      constructor; [apply Qlt_le_weak; exact E | exact Hall].
Qed.

Lemma sort_ascending_sorted (l : list A) :
  StronglySorted ascending (sort_ascending key l).
Proof.
  induction l as [| x xs IH]; simpl.
  - constructor.
  - apply insert_sorted, IH.
Qed.

Lemma sorted_snoc (R : A -> A -> Prop) (l : list A) (x : A) :
  StronglySorted R l -> Forall (fun y => R y x) l -> StronglySorted R (l ++ [x]).
Proof.
  induction l as [| y ys IH]; simpl; intros Hs Hall.
  - constructor; constructor.
  - inversion Hs; subst. inversion Hall; subst.
    constructor; [apply IH; assumption |].
    apply Forall_app. split; [assumption | constructor; [assumption | constructor]].
Qed.

Lemma sorted_rev (l : list A) :
  StronglySorted ascending l -> StronglySorted descending (rev l).
Proof.
  induction l as [| y ys IH]; simpl; intros Hs.
  - constructor.
  - inversion Hs as [| ? ? Hys Hall]; subst.
    apply sorted_snoc; [apply IH; exact Hys |].
    apply Forall_rev. exact Hall.
Qed.

(** Inserting keeps the items of every key in their order, the new item
    first among its equals. *)
Lemma insert_filter (x : A) (l : list A) (q : Q) :
  filter (has_key q) (insert key x l) = filter (has_key q) (x :: l).
Proof.
  induction l as [| y ys IH]; [reflexivity |].
  simpl. destruct (Qleb (key x) (key y)) eqn:E; [reflexivity |].
  simpl. rewrite IH. simpl.
  destruct (Qeq_bool (key x) q) eqn:Ex; [| reflexivity].
  destruct (Qeq_bool (key y) q) eqn:Ey; [| reflexivity].
  exfalso.
  apply Qeq_bool_iff in Ex. apply Qeq_bool_iff in Ey. apply Qleb_false in E.
  rewrite Ex, Ey in E. exact (Qlt_irrefl _ E).
Qed.

Lemma sort_ascending_filter (l : list A) (q : Q) :
  filter (has_key q) (sort_ascending key l) = filter (has_key q) l.
Proof.
  induction l as [| x xs IH]; [reflexivity |].
  simpl sort_ascending. rewrite insert_filter. simpl. rewrite IH. reflexivity.
Qed.

Lemma sorted_reverse_perm (l : list A) : Permutation (sorted key true l) l.
Proof.
  unfold sorted.
  eapply perm_trans; [apply Permutation_sym, Permutation_rev |].
  eapply perm_trans; [apply sort_ascending_perm |].
  apply Permutation_sym, Permutation_rev.
Qed.

Lemma sorted_reverse_descending (l : list A) :
  StronglySorted descending (sorted key true l).
Proof. unfold sorted. apply sorted_rev, sort_ascending_sorted. Qed.

Lemma sorted_reverse_stable (l : list A) (q : Q) :
  filter (has_key q) (sorted key true l) = filter (has_key q) l.
Proof.
  unfold sorted.
  rewrite filter_rev, sort_ascending_filter, filter_rev, rev_involutive.
  reflexivity.
Qed.

End Facts.
End SortFacts.

(** ** Scoring and ranking *)

Module RecommendationFacts.
Import Py ResultFacts RecommendationEngine.

Section Facts.
Context {rt : Runtime}.

Lemma _to_float_returns (v : value) (default : Q) :
  exists x, _to_float v default = Ok x.
Proof.
  unfold _to_float, float_.
  destruct v as [| b | n | x | s | l | d]; try (eexists; reflexivity).
  destruct (float_of_str s); eexists; reflexivity.
Qed.


Lemma lookup_setitem (k : string) (v : value) (d : dict) :
  lookup k (setitem k v d) = Some v.
Proof.
  induction d as [| [k' v'] rest IH]; simpl.
  - rewrite String.eqb_refl. reflexivity.
  - destruct (String.eqb k k') eqn:E; simpl.
    + rewrite String.eqb_refl. reflexivity.
    + rewrite E. exact IH.
Qed.

(** The scored copy carries every other item of the offer unchanged. *)
Lemma lookup_annotate_other (k : string) (h : dict) (s : Q) :
  k <> "score" -> lookup k (annotate h s) = lookup k h.
Proof.
  intros Hk. apply String.eqb_neq in Hk. unfold annotate.
  induction h as [| [k' v'] rest IH].
  - simpl. rewrite Hk. reflexivity.
  - cbn [setitem]. destruct (String.eqb "score" k') eqn:E; cbn [lookup].
    + apply String.eqb_eq in E. subst k'. rewrite Hk. reflexivity.
    + destruct (String.eqb k k'); [reflexivity | exact IH].
Qed.

Lemma score_key_annotate (h : dict) (s : Q) : score_key (annotate h s) = s.
Proof.
  unfold score_key, annotate, get_default. rewrite lookup_setitem. reflexivity.
Qed.

(** A score that is returned is the sum of the four blocks, in their order. *)
Lemma calculate_score_ok (user_prefs hotel : dict) (s : Q) :
  calculate_score user_prefs hotel = Ok s ->
  exists b p r a n,
    budget_of user_prefs = Ok b /\ price_of hotel = Ok p /\
    rating_raw_of hotel = Ok r /\
    amenities_score user_prefs hotel = Ok a /\
    review_count_of hotel = Ok n /\
    s = 0.0 + price_points b p + rating_points r + a
        + review_points n (rating10_of_raw r).
Proof.
  unfold calculate_score, price_score, rating10_of, review_score.
  intros H.
  apply bind_ok in H as (p0 & Hp & H).
  apply bind_ok in Hp as (b & Hb & Hp).
  apply bind_ok in Hp as (p & Hpr & Hp).
  apply bind_ok in H as (r10 & Hr & H).
  apply bind_ok in Hr as (r & Hraw & Hr).
  apply bind_ok in H as (a & Ha & H).
  apply bind_ok in H as (rv & Hrv & H).
  apply bind_ok in Hrv as (n & Hn & Hrv).
  injection Hp as <-. injection Hr as <-. injection Hrv as <-. injection H as <-.
  exists b, p, r, a, n. repeat split; assumption.
Qed.

(** An offer is scored as soon as its two sets can be built and its review
    count can be read. *)
Lemma calculate_score_returns (user_prefs hotel : dict) :
  returns (amenities_score user_prefs hotel) ->
  returns (review_count_of hotel) ->
  returns (calculate_score user_prefs hotel).
Proof.
  intros [a Ha] [n Hn].
  unfold calculate_score, price_score, rating10_of, review_score, budget_of,
    price_of, rating_raw_of.
  destruct (_to_float_returns (get user_prefs "budget_max") 0.0) as [b ->].
  destruct (_to_float_returns
              (or_ (get hotel "price") (get hotel "price_per_night")) 0.0) as [p ->].
  destruct (_to_float_returns
              (or_ (get hotel "rating") (get hotel "rating_raw")) 0.0) as [r ->].
  simpl. rewrite Ha. simpl. rewrite Hn. simpl. eexists. reflexivity.
Qed.

Lemma set_of_strings_returns (tags : list string) :
  returns (set_ (VList (map VStr tags))).
Proof.
  unfold set_. simpl.
  assert (H : forallb hashable (map VStr tags) = true)
    by (induction tags; simpl; auto).
  rewrite H. eexists. reflexivity.
Qed.

Lemma tags_make_a_set (v : value) :
  v = VNone \/ (exists tags, v = VList (map VStr tags)) ->
  returns (set_ (or_ v (VList []))).
Proof.
  intros [-> | [tags ->]].
  - eexists. reflexivity.
  - unfold or_. destruct (truthy _).
    + apply set_of_strings_returns.
    + eexists. reflexivity.
Qed.

(** An offer of the canonical shape (its amenities absent or a list of tags,
    its review count absent or an integer) is scored against preferences of
    the canonical shape. *)
Lemma canonical_offer_is_scored (user_prefs hotel : dict) :
  get hotel "amenities" = VNone \/
    (exists tags, get hotel "amenities" = VList (map VStr tags)) ->
  get user_prefs "preferences" = VNone \/
    (exists tags, get user_prefs "preferences" = VList (map VStr tags)) ->
  (exists n,
     or_ (or_ (get hotel "rating_count") (get hotel "total_rating_count")) (VInt 0)
     = VInt n) ->
  returns (calculate_score user_prefs hotel).
Proof.
  intros Ha Hp [n Hn].
  apply calculate_score_returns.
  - unfold amenities_score.
    destruct (tags_make_a_set Ha) as [sa ->].
    destruct (tags_make_a_set Hp) as [sp ->].
    eexists. reflexivity.
  - unfold review_count_of. rewrite Hn. eexists. reflexivity.
Qed.

(** With no ['rating_raw'] item, the raw rating is the number under
    ['rating']. *)
Lemma rating_raw_of_rating_field (hotel : dict) (r : Q) :
  lookup "rating_raw" hotel = None ->
  get hotel "rating" = VFloat r ->
  exists x, rating_raw_of hotel = Ok x /\ x == r.
Proof.
  intros Hraw Hrating. unfold rating_raw_of, or_.
  rewrite Hrating. unfold get at 1, get_default. rewrite Hraw.
  simpl truthy. destruct (Qeq_bool r 0) eqn:E; simpl.
  - apply Qeq_bool_iff in E. eexists. split; [reflexivity |].
    rewrite E. reflexivity.
  - eexists. split; reflexivity.
Qed.

Lemma score_hotels_spec (user_prefs : dict) (hotels scored : list dict) :
  score_hotels user_prefs hotels = Ok scored ->
  Forall2 (fun h o => exists s,
             calculate_score user_prefs h = Ok s /\ o = annotate h s /\ score_key o = s)
          hotels scored.
Proof.
  revert scored. induction hotels as [| h rest IH]; simpl; intros scored H.
  - injection H as <-. constructor.
  - apply bind_ok in H as (s & Hs & H).
    apply bind_ok in H as (tl & Htl & H).
    injection H as <-.
    constructor; [| apply IH; exact Htl].
    exists s. repeat split; [exact Hs | apply score_key_annotate].
Qed.


Lemma score_hotels_raises (user_prefs : dict) (before after : list dict)
    (h : dict) (e : exn) :
  Forall (fun x => returns (calculate_score user_prefs x)) before ->
  calculate_score user_prefs h = Raise e ->
  score_hotels user_prefs (before ++ h :: after) = Raise e.
Proof.
  induction 1 as [| x rest [s Hs] _ IH]; simpl; intros Hh.
  - rewrite Hh. reflexivity.
  - rewrite Hs. simpl. rewrite (IH Hh). reflexivity.
Qed.

End Facts.
End RecommendationFacts.

(** ** The five factors of the score *)

Module ScoreFacts.
Import Py ResultFacts RecommendationEngine RecommendationFacts.

Section Facts.
Context {rt : Runtime}.

(** C1.  What [calculate_score] does with the quality bonus: with more than
    50 reviews the score is the price, rating and amenity blocks plus the
    review tier (15 above 100 reviews, 10 above 50) and nothing for quality,
    whatever the rating; up to 50 reviews it is those blocks plus 5 plus the
    quality bonus (+10 from 9.0, +7 from 8.5, +3 from 8.0 on the ten-point
    rating).  The bonus is therefore not applied to every offer. *)
Theorem quality_bonus_only_up_to_50_reviews
    (user_prefs hotel : dict) (n : Z) (r s : Q) :
  review_count_of hotel = Ok n ->
  rating_raw_of hotel = Ok r ->
  calculate_score user_prefs hotel = Ok s ->
  exists p a,
    price_score user_prefs hotel = Ok p /\
    amenities_score user_prefs hotel = Ok a /\
    ((50 < n)%Z ->
       s == p + rating_points r + a + (if (100 <? n)%Z then 15 else 10)) /\
    ((n <= 50)%Z ->
       s == p + rating_points r + a + 5 + quality_bonus (rating10_of_raw r)).
Proof.
  intros Hn Hr Hs.
  apply calculate_score_ok in Hs as (b & p & r' & a & n' & Hb & Hp & Hr' & Ha & Hn' & ->).
  rewrite Hr in Hr'. injection Hr' as <-.
  rewrite Hn in Hn'. injection Hn' as <-.
  exists (price_points b p), a.
  split; [unfold price_score; rewrite Hb, Hp; reflexivity |].
  split; [exact Ha |].
  unfold review_points, rating_points. split; intros Hlt.
  - destruct (100 <? n)%Z eqn:E1; [lra |].
    destruct (50 <? n)%Z eqn:E2; [lra |].
    apply Z.ltb_ge in E2. lia.
  - destruct (100 <? n)%Z eqn:E1; [apply Z.ltb_lt in E1; lia |].
    destruct (50 <? n)%Z eqn:E2; [apply Z.ltb_lt in E2; lia |].
    lra.
Qed.

Lemma quality_bonus_tiers (rating10 : Q) :
  (9.0 <= rating10 -> quality_bonus rating10 = 10) /\
  (8.5 <= rating10 -> rating10 < 9.0 -> quality_bonus rating10 = 7) /\
  (8.0 <= rating10 -> rating10 < 8.5 -> quality_bonus rating10 = 3) /\
  (rating10 < 8.0 -> quality_bonus rating10 = 0).
Proof.
  unfold quality_bonus.
  destruct (Qleb 9.0 rating10) eqn:E9;
    [apply Qleb_true in E9 | apply Qleb_false in E9];
  (destruct (Qleb 8.5 rating10) eqn:E85;
    [apply Qleb_true in E85 | apply Qleb_false in E85]);
  (destruct (Qleb 8.0 rating10) eqn:E8;
    [apply Qleb_true in E8 | apply Qleb_false in E8]);
  repeat split; intros; try reflexivity; exfalso; lra.
Qed.



End Facts.
End ScoreFacts.

(** ** Ranking *)

Module RankingFacts.
Import Py ResultFacts RecommendationEngine RecommendationFacts.

Section Facts.
Context {rt : Runtime}.


(** Two offers of equal score keep their input order: if [a] stands before
    [b] among the scored copies, it stands before [b] in the ranking. *)
Lemma equal_scores_keep_order (scored : list dict) (a b : dict)
    (before between after : list dict) :
  scored = before ++ a :: between ++ b :: after ->
  score_key a == score_key b ->
  exists l1 l2 l3,
    filter (fun o => Qeq_bool (score_key o) (score_key a))
           (sorted score_key true scored)
    = l1 ++ a :: l2 ++ b :: l3.
Proof.
  intros -> Heq.
  rewrite SortFacts.sorted_reverse_stable.
  rewrite filter_app. simpl. rewrite Qeq_bool_refl.
  rewrite filter_app. simpl.
  assert (Hb : Qeq_bool (score_key b) (score_key a) = true).
  { apply Qeq_bool_iff. symmetry. exact Heq. }
  rewrite Hb. do 3 eexists. reflexivity.
Qed.

(** C5.  What [rank_hotels] does when one offer cannot be scored: the
    exception of the first such offer is the outcome of the whole call; no
    offer is returned, also not the ones scored before it. *)
Theorem rank_hotels_raises_when_one_offer_fails
    (before after : list dict) (h : dict) (user_prefs : dict) (e : exn) :
  Forall (fun x => returns (calculate_score user_prefs x)) before ->
  calculate_score user_prefs h = Raise e ->
  rank_hotels (before ++ h :: after) user_prefs = Raise e.
Proof.
  intros Hbefore Hh. unfold rank_hotels.
  erewrite score_hotels_raises by eassumption. reflexivity.
Qed.

(** A review count that is a non-empty string [int] cannot read makes the
    scoring of its offer raise [ValueError]. *)
Lemma calculate_score_unreadable_review_count
    (user_prefs hotel : dict) (s : string) :
  get hotel "rating_count" = VStr s ->
  s <> EmptyString ->
  int_of_str s = None ->
  returns (amenities_score user_prefs hotel) ->
  calculate_score user_prefs hotel = Raise ValueError.
Proof.
  intros Hget Hne Hint [a Ha].
  unfold calculate_score, price_score, rating10_of, review_score, budget_of,
    price_of, rating_raw_of.
  destruct (_to_float_returns (get user_prefs "budget_max") 0.0) as [b ->].
  destruct (_to_float_returns
              (or_ (get hotel "price") (get hotel "price_per_night")) 0.0) as [p ->].
  destruct (_to_float_returns
              (or_ (get hotel "rating") (get hotel "rating_raw")) 0.0) as [r ->].
  simpl. rewrite Ha. simpl.
  unfold review_count_of. rewrite Hget.
  assert (Ht : truthy (VStr s) = true).
  { simpl. destruct s; [contradiction | reflexivity]. }
  unfold or_ at 2. rewrite Ht. unfold or_. rewrite Ht.
  simpl. rewrite Hint. reflexivity.
Qed.

End Facts.
End RankingFacts.

(** ** The turn: intent and stored preferences *)

Module TurnFacts.
Import Py ResultFacts Views ChatbotAIEngine.

Section Facts.
Context {rt : Runtime}.

Lemma truthy_get_item (d : dict) (k : string) :
  is_not_none (get d k) = true -> getitem d k = Ok (get d k).
Proof.
  unfold get, get_default, getitem.
  destruct (lookup k d); [reflexivity | discriminate].
Qed.

Lemma truthy_is_not_none (v : value) : truthy v = true -> is_not_none v = true.
Proof. destruct v; simpl; congruence. Qed.

Lemma int_raises (v : value) (e : exn) :
  int_ v = Raise e -> e = TypeError \/ e = ValueError.
Proof.
  destruct v as [| b | n | x | s | l | d]; simpl; try discriminate;
    try (intros H; injection H as <-; auto).
  destruct (int_of_str s); [discriminate | intros H; injection H as <-; auto].
Qed.

Lemma float_raises (v : value) (e : exn) :
  float_ v = Raise e -> e = TypeError \/ e = ValueError.
Proof.
  destruct v as [| b | n | x | s | l | d]; simpl; try discriminate;
    try (intros H; injection H as <-; auto).
  destruct (float_of_str s); [discriminate | intros H; injection H as <-; auto].
Qed.

Lemma assign_if_truthy_dict (d : dict) (k : string)
    (assign : value -> UserSearchPreference -> UserSearchPreference)
    (prefs : UserSearchPreference) :
  assign_if_truthy (VDict d) k assign prefs
  = Ok (if truthy (get d k) then assign (get d k) prefs else prefs).
Proof.
  unfold assign_if_truthy. simpl. fold (get d k).
  destruct (truthy (get d k)) eqn:E; [| reflexivity].
  rewrite (truthy_get_item d k (truthy_is_not_none _ E)). reflexivity.
Qed.

Lemma assign_guests_dict (d : dict) (prefs : UserSearchPreference) :
  assign_guests (VDict d) prefs
  = Ok (if truthy (get d "guests") then
          match int_ (get d "guests") with
          | Ok n => set_guests (VInt n) prefs
          | Raise _ => prefs
          end
        else prefs).
Proof.
  unfold assign_guests. simpl. fold (get d "guests").
  destruct (truthy (get d "guests")) eqn:E; [| reflexivity].
  rewrite (truthy_get_item d "guests" (truthy_is_not_none _ E)). simpl.
  destruct (int_ (get d "guests")) as [n | e] eqn:Ei; [reflexivity |].
  destruct (int_raises _ Ei) as [-> | ->]; reflexivity.
Qed.

Lemma assign_budget_max_dict (d : dict) (prefs : UserSearchPreference) :
  assign_budget_max (VDict d) prefs
  = Ok (if is_not_none (get d "budget_max") then
          match float_ (get d "budget_max") with
          | Ok b => set_budget_max (VFloat b) prefs
          | Raise _ => set_budget_max VNone prefs
          end
        else prefs).
Proof.
  unfold assign_budget_max. simpl. fold (get d "budget_max").
  destruct (is_not_none (get d "budget_max")) eqn:E; [| reflexivity].
  rewrite (truthy_get_item d "budget_max" E). simpl.
  destruct (float_ (get d "budget_max")) as [b | e] eqn:Ef; [reflexivity |].
  destruct (float_raises _ Ef) as [-> | ->]; reflexivity.
Qed.



End Facts.
End TurnFacts.

(** ** The intent extractor *)

Module IntentFacts.
Import Py ResultFacts ChatbotAIEngine.

Section Facts.
Context {rt : Runtime}.

(** The messages [parse_user_intent] writes itself. *)
Local Abbreviation own_messages :=
  ["API key not configured"; "API Error"; "No choices in response";
   "Parse Error"; "Timeout"].



End Facts.
End IntentFacts.

(** ** The Makcorps adapter *)

Module AdapterFacts.
Import Py ResultFacts RecommendationEngine RecommendationFacts MakcorpsClient.

Section Facts.
Context {rt : Runtime}.
Variable provider : trace -> request -> value.
Variable self : client.

Local Abbreviation city_request cityid checkin checkout adults rooms currency pagination :=
  ("/city",
   setitem "api_key" (api_key self)
     (city_params cityid checkin checkout adults rooms currency pagination)).

Local Abbreviation mapping_request name :=
  ("/mapping", setitem "api_key" (api_key self) [("name", name)]).

Local Abbreviation booking_request location check_in check_out guests :=
  ("/booking",
   setitem "api_key" (api_key self)
     (booking_params location check_in check_out guests)).

Lemma normalized_offer (items : list value) (offer : dict) :
  In offer (normalize_city_items items) ->
  exists item, In (VDict item) items /\ offer = normalize_city_item item.
Proof.
  induction items as [| v rest IH]; simpl; [contradiction |].
  destruct v; try (intros H; destruct (IH H) as (item & Hin & ->);
                   exists item; split; [right; exact Hin | reflexivity]).
  intros [<- | H].
  - eexists. split; [left; reflexivity | reflexivity].
  - destruct (IH H) as (item & Hin & ->).
    exists item. split; [right; exact Hin | reflexivity].
Qed.

(** A city search sends one request, and answers the empty list when the
    provider gives nothing. *)
Lemma search_by_city_id_request
    (cityid checkin checkout adults rooms currency pagination : value) (tr : trace) :
  snd (search_by_city_id provider self cityid checkin checkout adults rooms
         currency pagination tr)
  = tr ++ [city_request cityid checkin checkout adults rooms currency pagination].
Proof.
  unfold search_by_city_id, io_bind, _get. simpl.
  destruct (negb (truthy _)); [reflexivity |].
  unfold io_lift. destruct (iter _); reflexivity.
Qed.

Lemma search_by_city_id_no_answer
    (cityid checkin checkout adults rooms currency pagination : value) (tr : trace) :
  truthy (provider tr
            (city_request cityid checkin checkout adults rooms currency pagination))
  = false ->
  fst (search_by_city_id provider self cityid checkin checkout adults rooms
         currency pagination tr) = Ok [].
Proof.
  intros H. unfold search_by_city_id, io_bind, _get. rewrite H. reflexivity.
Qed.

Lemma search_by_city_id_offers
    (cityid checkin checkout adults rooms currency pagination : value)
    (tr tr' : trace) (offers : list dict) :
  search_by_city_id provider self cityid checkin checkout adults rooms
    currency pagination tr = (Ok offers, tr') ->
  forall offer, In offer offers -> exists item, offer = normalize_city_item item.
Proof.
  unfold search_by_city_id, io_bind, _get. simpl.
  destruct (negb (truthy _)).
  - unfold io_ret. intros H. injection H as <- _. contradiction.
  - unfold io_lift. destruct (iter _) as [items | e]; [| discriminate].
    unfold io_ret. intros H. injection H as <- _.
    intros offer Hin. destruct (normalized_offer _ _ Hin) as (item & _ & ->).
    eexists. reflexivity.
Qed.

Lemma normalized_amenities_score (item user_prefs : dict) :
  returns (set_ (or_ (get user_prefs "preferences") (VList []))) ->
  amenities_score user_prefs (normalize_city_item item) = Ok 10.
Proof.
  intros [wanted Hw]. unfold amenities_score.
  change (get (normalize_city_item item) "amenities") with VNone.
  simpl. rewrite Hw. simpl. unfold amenities_points.
  rewrite andb_false_r. reflexivity.
Qed.

Lemma normalized_score_ignores_preferences (item prefs1 prefs2 : dict) :
  get prefs1 "budget_max" = get prefs2 "budget_max" ->
  returns (set_ (or_ (get prefs1 "preferences") (VList []))) ->
  returns (set_ (or_ (get prefs2 "preferences") (VList []))) ->
  calculate_score prefs1 (normalize_city_item item)
  = calculate_score prefs2 (normalize_city_item item).
Proof.
  intros Hb H1 H2. unfold calculate_score.
  rewrite !normalized_amenities_score by assumption.
  unfold price_score, budget_of. rewrite Hb. reflexivity.
Qed.

(** C10.  An offer returned by [search_by_city_id] has no ['amenities'] item;
    for every preference record whose ['preferences'] make a set (empty or
    not) the amenity block takes the neutral branch and adds exactly 10; so
    two preference records with the same budget give every such offer the
    same score, and the whole result the same ranking, whatever amenities
    they ask for. *)
Theorem makcorps_city_offers_ignore_amenities
    (cityid checkin checkout adults rooms currency pagination : value)
    (tr tr' : trace) (offers : list dict) :
  search_by_city_id provider self cityid checkin checkout adults rooms
    currency pagination tr = (Ok offers, tr') ->
  (forall offer, In offer offers ->
     lookup "amenities" offer = None /\
     (forall user_prefs,
        returns (set_ (or_ (get user_prefs "preferences") (VList []))) ->
        amenities_score user_prefs offer = Ok 10)) /\
  (forall prefs1 prefs2,
     get prefs1 "budget_max" = get prefs2 "budget_max" ->
     returns (set_ (or_ (get prefs1 "preferences") (VList []))) ->
     returns (set_ (or_ (get prefs2 "preferences") (VList []))) ->
     (forall offer, In offer offers ->
        calculate_score prefs1 offer = calculate_score prefs2 offer) /\
     rank_hotels offers prefs1 = rank_hotels offers prefs2).
Proof.
  intros Hsearch.
  assert (Hoffers : forall offer, In offer offers ->
                     exists item, offer = normalize_city_item item)
    by (eapply search_by_city_id_offers; exact Hsearch).
  clear Hsearch. split.
  - intros offer Hin. destruct (Hoffers offer Hin) as [item ->].
    split; [reflexivity |].
    intros user_prefs Hset. apply normalized_amenities_score. exact Hset.
  - intros prefs1 prefs2 Hb H1 H2.
    assert (Hscore : forall offer, In offer offers ->
              calculate_score prefs1 offer = calculate_score prefs2 offer).
    { intros offer Hin. destruct (Hoffers offer Hin) as [item ->].
      apply normalized_score_ignores_preferences; assumption. }
    split; [exact Hscore |].
    unfold rank_hotels. f_equal.
    clear Hoffers. induction offers as [| o rest IH]; [reflexivity |].
    simpl. rewrite (Hscore o (or_introl eq_refl)).
    rewrite IH; [reflexivity |].
    intros offer Hin. apply Hscore. right. exact Hin.
Qed.

End Facts.
End AdapterFacts.

(** ** The resolution order of [search_hotels] *)

Module ResolutionFacts.
Import Py ResultFacts MakcorpsClient AdapterFacts.

Section Facts.
Context {rt : Runtime}.
Variable provider : trace -> request -> value.
Variable self : client.

Local Abbreviation city_request cityid checkin checkout adults rooms currency pagination :=
  ("/city",
   setitem "api_key" (api_key self)
     (city_params cityid checkin checkout adults rooms currency pagination)).

Local Abbreviation mapping_request name :=
  ("/mapping", setitem "api_key" (api_key self) [("name", name)]).

Local Abbreviation booking_request location check_in check_out guests :=
  ("/booking",
   setitem "api_key" (api_key self)
     (booking_params location check_in check_out guests)).

(** The tests and the identifier of a mapping entry that is a dictionary. *)
Local Abbreviation geo :=
  (fun d : dict =>
     eqb (get d "type") (VStr "GEO") || eqb (get d "data_type") (VStr "LOCATION")).

Local Abbreviation hotel :=
  (fun d : dict => eqb (get d "type") (VStr "HOTEL")).

Local Abbreviation entry_id :=
  (fun d : dict => or_ (get d "value") (get d "document_id")).

Lemma id_of_dict (d : dict) : id_of (VDict d) = Ok (entry_id d).
Proof.
  unfold id_of, or_. simpl. fold (get d "value"). 
  destruct (truthy (get d "value")); reflexivity.
Qed.

Lemma is_geo_dict (d : dict) : is_geo (VDict d) = Ok (geo d).
Proof.
  unfold is_geo. simpl. fold (get d "type").
  destruct (eqb (get d "type") (VStr "GEO")); reflexivity.
Qed.

Lemma is_hotel_dict (d : dict) : is_hotel (VDict d) = Ok (hotel d).
Proof. reflexivity. Qed.

Lemma first_match_dicts (test : value -> result bool) (p : dict -> bool)
    (ds : list dict) :
  (forall d, test (VDict d) = Ok (p d)) ->
  first_match test (map VDict ds) = Ok (option_map entry_id (find p ds)).
Proof.
  intros Htest. induction ds as [| d rest IH]; [reflexivity |].
  simpl. rewrite Htest. simpl.
  destruct (p d).
  - rewrite id_of_dict. reflexivity.
  - exact IH.
Qed.

(** The choice among the entries of a mapping answer: the first geographic
    entry, else the first hotel entry, else the first entry. *)
Lemma choose_id_preference (ds : list dict) :
  choose_id (map VDict ds)
  = Ok match find geo ds with
       | Some d => entry_id d
       | None =>
           match find hotel ds with
           | Some d => entry_id d
           | None =>
               match ds with
               | d :: _ => entry_id d
               | [] => VNone
               end
           end
       end.
Proof.
  unfold choose_id.
  destruct ds as [| d0 rest]; [reflexivity |].
  change (nonempty (map VDict (d0 :: rest))) with true. cbn [negb].
  rewrite (first_match_dicts is_geo geo (d0 :: rest) is_geo_dict).
  destruct (find geo (d0 :: rest)); [reflexivity |].
  cbn [option_map bind].
  rewrite (first_match_dicts is_hotel hotel (d0 :: rest) is_hotel_dict).
  destruct (find hotel (d0 :: rest)); [reflexivity |].
  cbn [option_map bind subscript nth_error map].
  apply id_of_dict.
Qed.

Lemma mapping_request_sent (name : value) (tr : trace) :
  snd (mapping provider self name tr) = tr ++ [mapping_request name].
Proof.
  unfold mapping, io_bind, _get.
  destruct (negb (truthy _)); reflexivity.
Qed.

Lemma choose_request_sent (name : value) (tr : trace) :
  snd (_choose_id_from_mapping provider self name tr) = tr ++ [mapping_request name].
Proof.
  unfold _choose_id_from_mapping, io_bind.
  pose proof (mapping_request_sent name tr) as H.
  destruct (mapping provider self name tr) as [[items | e] tr1]; simpl in *; exact H.
Qed.

Lemma mapping_silent (name : value) (tr : trace) :
  truthy (provider tr (mapping_request name)) = false ->
  _choose_id_from_mapping provider self name tr
  = (Ok VNone, tr ++ [mapping_request name]).
Proof.
  intros H. unfold _choose_id_from_mapping, mapping, io_bind, _get.
  rewrite H. reflexivity.
Qed.

Lemma search_by_name_resolved
    (location check_in check_out guests city_id : value) (tr tr1 : trace) :
  _choose_id_from_mapping provider self location tr = (Ok city_id, tr1) ->
  (truthy city_id = true ->
   search_by_name provider self location check_in check_out guests tr
   = search_by_city_id provider self city_id check_in check_out guests
       (VInt 1) (VStr "EUR") (VInt 0) tr1) /\
  (truthy city_id = false ->
   snd (search_by_name provider self location check_in check_out guests tr)
   = tr1 ++ [booking_request location check_in check_out guests] /\
   (truthy (provider tr1 (booking_request location check_in check_out guests)) = false ->
    fst (search_by_name provider self location check_in check_out guests tr) = Ok [])).
Proof.
  intros Hc.
  assert (E : search_by_name provider self location check_in check_out guests tr
              = (if truthy city_id then
                   search_by_city_id provider self city_id check_in check_out
                     guests (VInt 1) (VStr "EUR") (VInt 0)
                 else
                   data <<- _get provider self "/booking"
                              (booking_params location check_in check_out guests) ;;
                   if truthy data then io_lift (booking_rooms location data)
                   else io_ret []) tr1).
  { unfold search_by_name, io_bind at 1. rewrite Hc. reflexivity. }
  rewrite E. clear E.
  split; intros Ht; rewrite Ht.
  - reflexivity.
  - unfold io_bind, _get. split.
    + destruct (truthy (provider _ _)); reflexivity.
    + intros ->. reflexivity.
Qed.
Arguments search_by_name_resolved : clear implicits.

Lemma search_by_name_requests
    (location check_in check_out guests : value) (tr : trace) :
  exists more,
    snd (search_by_name provider self location check_in check_out guests tr)
    = tr ++ mapping_request location :: more.
Proof.
  pose proof (choose_request_sent location tr) as Hsent.
  destruct (_choose_id_from_mapping provider self location tr)
    as [[city_id | e'] tr1] eqn:Hc; simpl in Hsent; subst tr1.
  - destruct (search_by_name_resolved location check_in check_out guests
                _ _ _ Hc) as [Hyes Hno].
    destruct (truthy city_id) eqn:Ht.
    + rewrite (Hyes eq_refl), search_by_city_id_request.
      rewrite <- app_assoc. eexists. reflexivity.
    + destruct (Hno eq_refl) as [-> _].
      rewrite <- app_assoc. eexists. reflexivity.
  - unfold search_by_name, io_bind at 1. rewrite Hc.
    exists []. reflexivity.
Qed.

(** C7, as amended.  The resolution order of [search_hotels].
    (1) A location that [int] accepts is used at once as the city identifier:
        the first request is the city search for it, with no name lookup
        before; when that search returns, its offers are the result and it
        is the only request.
    (2) Otherwise the first request is the name lookup for the location; among
        the entries of its answer the identifier is that of the first
        geographic entry, else of the first hotel entry, else of the first
        entry; an identifier that is found is used for the city search.
    (3) When the lookup gives no identifier, the slug lookup on [/booking] is
        the next and last request.
    (4) When the provider call fails (the provider gives nothing: to the city
        search of an identifier, to the slug lookup, or to every request),
        the result is the empty list: nothing is raised. *)
Theorem search_hotels_resolution_order
    (location check_in check_out guests : value) (tr : trace) :
  (forall val,
     int_ location = Ok val ->
     (exists more,
        snd (search_hotels provider self location check_in check_out guests tr)
        = tr ++ city_request (VInt val) check_in check_out guests
                  (VInt 1) (VStr "EUR") (VInt 0) :: more) /\
     (forall offers tr',
        search_by_city_id provider self (VInt val) check_in check_out guests
          (VInt 1) (VStr "EUR") (VInt 0) tr = (Ok offers, tr') ->
        search_hotels provider self location check_in check_out guests tr
        = (Ok offers, tr') /\
        tr' = tr ++ [city_request (VInt val) check_in check_out guests
                       (VInt 1) (VStr "EUR") (VInt 0)]) /\
     (truthy (provider tr (city_request (VInt val) check_in check_out guests
                             (VInt 1) (VStr "EUR") (VInt 0))) = false ->
      fst (search_hotels provider self location check_in check_out guests tr)
      = Ok [])) /\
  (forall e,
     int_ location = Raise e ->
     search_hotels provider self location check_in check_out guests tr
     = search_by_name provider self location check_in check_out guests tr /\
     exists more,
       snd (search_by_name provider self location check_in check_out guests tr)
       = tr ++ mapping_request location :: more) /\
  (forall ds,
     choose_id (map VDict ds)
     = Ok match find geo ds with
          | Some d => entry_id d
          | None =>
              match find hotel ds with
              | Some d => entry_id d
              | None => match ds with d :: _ => entry_id d | [] => VNone end
              end
          end) /\
  (forall city_id tr1,
     _choose_id_from_mapping provider self location tr = (Ok city_id, tr1) ->
     (truthy city_id = true ->
      search_by_name provider self location check_in check_out guests tr
      = search_by_city_id provider self city_id check_in check_out guests
          (VInt 1) (VStr "EUR") (VInt 0) tr1 /\
      (truthy (provider tr1 (city_request city_id check_in check_out guests
                               (VInt 1) (VStr "EUR") (VInt 0))) = false ->
       fst (search_by_name provider self location check_in check_out guests tr)
       = Ok [])) /\
     (truthy city_id = false ->
      snd (search_by_name provider self location check_in check_out guests tr)
      = tr1 ++ [booking_request location check_in check_out guests] /\
      (truthy (provider tr1 (booking_request location check_in check_out guests))
       = false ->
       fst (search_by_name provider self location check_in check_out guests tr)
       = Ok []))) /\
  ((forall t r, truthy (provider t r) = false) ->
   fst (search_hotels provider self location check_in check_out guests tr) = Ok []).
Proof.
  assert (Hint_run : forall val,
            int_ location = Ok val ->
            search_hotels provider self location check_in check_out guests tr
            = match search_by_city_id provider self (VInt val) check_in check_out
                      guests (VInt 1) (VStr "EUR") (VInt 0) tr with
              | (Ok offers, tr') => (Ok offers, tr')
              | (Raise _, tr') =>
                  search_by_name provider self location check_in check_out guests tr'
              end).
  { intros val Hint. unfold search_hotels, io_try, io_bind at 1, io_lift.
    rewrite Hint. reflexivity. }
  split; [| split; [| split; [| split]]].
  - intros val Hint. rewrite (Hint_run val Hint).
    pose proof (search_by_city_id_request provider self (VInt val) check_in
                  check_out guests (VInt 1) (VStr "EUR") (VInt 0) tr) as Hreq.
    pose proof (search_by_city_id_no_answer provider self (VInt val) check_in
                  check_out guests (VInt 1) (VStr "EUR") (VInt 0) tr) as Hnone.
    destruct (search_by_city_id provider self (VInt val) check_in check_out
                guests (VInt 1) (VStr "EUR") (VInt 0) tr) as [[offers | e] tr1];
      cbn [snd] in Hreq; subst tr1.
    + split; [exists []; reflexivity |].
      split; [| intros Hsilent; exact (Hnone Hsilent)].
      intros offers' tr' H. injection H as <- <-. split; reflexivity.
    + split.
      * match goal with
        | |- context [search_by_name _ _ _ _ _ _ ?t] =>
            destruct (search_by_name_requests location check_in check_out guests t)
              as [more ->]
        end.
        rewrite <- app_assoc. eexists. reflexivity.
      * split; [intros offers' tr' H; discriminate H |].
        intros Hsilent. specialize (Hnone Hsilent). discriminate Hnone.
  - intros e Hint. split.
    + unfold search_hotels, io_try, io_bind at 1, io_lift.
      rewrite Hint. reflexivity.
    + apply search_by_name_requests.
  - apply choose_id_preference.
  - intros city_id tr1 Hc.
    destruct (search_by_name_resolved location check_in check_out guests
                _ _ _ Hc) as [Hyes Hno].
    split; [| exact Hno].
    intros Ht. split; [exact (Hyes Ht) |].
    intros Hsilent. rewrite (Hyes Ht).
    apply search_by_city_id_no_answer. exact Hsilent.
  - intros Hsilent.
    destruct (int_ location) as [val | e] eqn:Hint.
    + rewrite (Hint_run val eq_refl).
      pose proof (search_by_city_id_no_answer provider self (VInt val) check_in
                    check_out guests (VInt 1) (VStr "EUR") (VInt 0) tr
                    (Hsilent _ _)) as H.
      destruct (search_by_city_id provider self (VInt val) check_in check_out
                  guests (VInt 1) (VStr "EUR") (VInt 0) tr) as [[offers | e] tr'];
        simpl in H; [exact H | discriminate].
    + unfold search_hotels, io_try, io_bind at 1, io_lift. rewrite Hint.
      pose proof (mapping_silent location tr (Hsilent _ _)) as Hc.
      destruct (search_by_name_resolved location check_in check_out guests
                  _ _ _ Hc) as [_ Hno].
      destruct (Hno eq_refl) as [_ Hempty].
      apply Hempty. apply Hsilent.
Qed.

End Facts.
End ResolutionFacts.

(** ** Worked examples *)

Module Checks.
Import Py RecommendationEngine Views ChatbotAIEngine MakcorpsClient Examples.

#[local] Existing Instance runtime.

(** The offer with a 9.0 rating and 150 reviews scores 15 + 22.5 + 10 + 15
    = 62.5: the quality bonus of 10 that its rating earns is not added. *)
Lemma acclaimed_hotel_gets_no_quality_bonus :
  exists s,
    calculate_score [] acclaimed_hotel = Ok s /\ s == 62.5 /\
    quality_bonus (rating10_of_raw 4.5) == 10 /\
    exists p a,
      price_score [] acclaimed_hotel = Ok p /\
      amenities_score [] acclaimed_hotel = Ok a /\
      s == p + rating_points 4.5 + a + 15.
Proof.
  eexists. split; [reflexivity |].
  split; [vm_compute; reflexivity |].
  split; [vm_compute; reflexivity |].
  destruct (ScoreFacts.quality_bonus_only_up_to_50_reviews
              [] acclaimed_hotel (n := 150) (r := 4.5) eq_refl eq_refl eq_refl)
    as (p & a & Hp & Ha & Habove & _).
  exists p, a. split; [exact Hp |]. split; [exact Ha |].
  apply Habove. reflexivity.
Defined.





(** One offer with the review count ['many'] between two good offers: the
    call raises [ValueError]. *)
Lemma rank_hotels_raises_witness :
  rank_hotels [offer_a; unreadable_hotel; offer_b] budget_120 = Raise ValueError.
Proof.
  apply (@RankingFacts.rank_hotels_raises_when_one_offer_fails runtime
           [offer_a] [offer_b] unreadable_hotel budget_120 ValueError).
  - constructor; [eexists; reflexivity | constructor].
  - reflexivity.
Defined.






(** The location ['482'] is searched as city 482 with one request; the name
    ['Marrakech'] is looked up first and resolved to the geographic entry,
    482, although a hotel entry comes first; a provider that never answers
    gives the empty list. *)
Lemma search_hotels_witness :
  (exists offers tr',
     search_hotels city_provider makcorps (VStr "482") (VStr "2025-03-01")
       (VStr "2025-03-05") (VInt 2) [] = (Ok offers, tr') /\
     paths tr' = ["/city"]) /\
  choose_id
    (map VDict [[("type", VStr "HOTEL"); ("value", VInt 11)];
                [("type", VStr "GEO"); ("value", VInt 482)]]) = Ok (VInt 482) /\
  fst (search_hotels silent_provider makcorps (VStr "Marrakech") (VStr "2025-03-01")
         (VStr "2025-03-05") (VInt 2) []) = Ok [].
Proof.
  split; [| split].
  - destruct (ResolutionFacts.search_hotels_resolution_order city_provider makcorps
                (VStr "482") (VStr "2025-03-01") (VStr "2025-03-05") (VInt 2) [])
      as (Hint & _).
    destruct (Hint 482%Z eq_refl) as (_ & Hdirect & _).
    destruct (Hdirect _ _ eq_refl) as [Hres Htr].
    do 2 eexists. split; [exact Hres | reflexivity].
  - destruct (ResolutionFacts.search_hotels_resolution_order city_provider makcorps
                (VStr "482") (VStr "2025-03-01") (VStr "2025-03-05") (VInt 2) [])
      as (_ & _ & Hchoose & _).
    rewrite Hchoose. reflexivity.
  - apply (ResolutionFacts.search_hotels_resolution_order silent_provider makcorps
             (VStr "Marrakech") (VStr "2025-03-01") (VStr "2025-03-05") (VInt 2) []).
    reflexivity.
Defined.

(** A name lookup that answers a list of names, not of records, makes
    [search_hotels] raise [AttributeError] to its caller; and when the city
    search of the location ['482'] answers a number, the name lookup and the
    slug lookup are requested after it. *)
Lemma garbled_answers_reach_the_caller :
  fst (search_hotels garbled_provider makcorps (VStr "Marrakech") (VStr "2025-03-01")
         (VStr "2025-03-05") (VInt 2) []) = Raise AttributeError /\
  int_ (VStr "482") = Ok 482%Z /\
  paths (snd (search_hotels counting_provider makcorps (VStr "482") (VStr "2025-03-01")
                (VStr "2025-03-05") (VInt 2) []))
  = ["/city"; "/mapping"; "/booking"].
Proof.
  split; [reflexivity |]. split; reflexivity.
Defined.

(** The city search of the example returns one offer (the trailing list of
    the body is skipped); asking for wifi and a pool adds 10 to it. *)
Lemma makcorps_city_offers_witness :
  exists offer tr',
    search_by_city_id city_provider makcorps (VInt 482) (VStr "2025-03-01")
      (VStr "2025-03-05") (VInt 2) (VInt 1) (VStr "EUR") (VInt 0) []
    = (Ok [offer], tr') /\
    lookup "amenities" offer = None /\
    amenities_score wifi_pool_prefs offer = Ok 10.
Proof.
  do 2 eexists. split; [reflexivity |].
  destruct (AdapterFacts.makcorps_city_offers_ignore_amenities
              city_provider makcorps (VInt 482) (VStr "2025-03-01")
              (VStr "2025-03-05") (VInt 2) (VInt 1) (VStr "EUR") (VInt 0) []
              eq_refl) as [Hoffer _].
  destruct (Hoffer _ (or_introl eq_refl)) as [Hnone Hten].
  split; [exact Hnone |].
  apply Hten. eexists. reflexivity.
Defined.

End Checks.

(** * Further properties of the code *)

(** ** Sets of hashable values *)

Module SetFacts.
Import Py ResultFacts.

Local Abbreviation same := (fun a b : value => eqb a b = true).

Lemma eqb_sym (a b : value) : eqb a b = eqb b a.
Proof.
  unfold eqb.
  destruct (as_number a) as [x |] eqn:Ea, (as_number b) as [y |] eqn:Eb;
    try reflexivity.
  - apply Qeq_bool_comm.
  - destruct a, b; try reflexivity; try discriminate.
    apply String.eqb_sym.
Qed.

Lemma eqb_trans (a b c : value) :
  eqb a b = true -> eqb b c = true -> eqb a c = true.
Proof.
  unfold eqb.
  destruct (as_number a) as [x |] eqn:Ea, (as_number b) as [y |] eqn:Eb,
           (as_number c) as [z |] eqn:Ec; try discriminate.
  - apply Qeq_bool_trans.
  - destruct a, b, c; try discriminate.
    + reflexivity.
    + intros H1 H2. apply String.eqb_eq in H1, H2. subst. apply String.eqb_refl.
Qed.

Lemma mem_InA (x : value) (l : list value) : mem x l = true <-> InA same x l.
Proof.
  unfold mem. rewrite existsb_exists, InA_alt.
  split; intros (y & H1 & H2); exists y; tauto.
Qed.

Lemma set_add_distinct (acc : list value) (x : value) :
  NoDupA same acc -> NoDupA same (set_add acc x).
Proof.
  unfold set_add. intros Hacc.
  destruct (mem x acc) eqn:E; [exact Hacc |].
  assert (Hx : ~ InA same x acc).
  { intros H. apply mem_InA in H. congruence. }
  clear E. induction Hacc as [| y ys Hy Hys IH]; simpl.
  - constructor; [intros H; inversion H | constructor].
  - constructor.
    + intros H. apply InA_app in H as [H | H]; [exact (Hy H) |].
      apply Hx. constructor. inversion H as [? ? Heq | ? ? Hnil]; subst.
      * rewrite eqb_sym. exact Heq.
      * inversion Hnil.
    + apply IH. intros H. apply Hx. constructor 2. exact H.
Qed.

Lemma fold_set_add_distinct (items acc : list value) :
  NoDupA same acc -> NoDupA same (fold_left set_add items acc).
Proof.
  revert acc. induction items as [| x rest IH]; simpl; intros acc Hacc.
  - exact Hacc.
  - apply IH, set_add_distinct, Hacc.
Qed.

(** The elements of a set are pairwise different. *)
Lemma set_distinct (v : value) (s : list value) :
  set_ v = Ok s -> NoDupA same s.
Proof.
  unfold set_. intros H. apply bind_ok in H as (items & _ & H).
  destruct (forallb hashable items); [| discriminate].
  injection H as <-. apply fold_set_add_distinct. constructor.
Qed.

Lemma filter_length_le {A} (f g : A -> bool) (l : list A) :
  (forall x, In x l -> f x = true -> g x = true) ->
  (length (filter f l) <= length (filter g l))%nat.
Proof.
  induction l as [| x rest IH]; simpl; intros H; [lia |].
  assert (IH' := IH (fun y Hy => H y (or_intror Hy))).
  destruct (f x) eqn:Ef.
  - rewrite (H x (or_introl eq_refl) Ef). simpl. lia.
  - destruct (g x); simpl; lia.
Qed.

(** An intersection has no more elements than its right operand. *)
Lemma set_inter_length (a b : list value) :
  NoDupA same a -> (length (set_inter a b) <= length b)%nat.
Proof.
  unfold set_inter. intros Ha. revert b.
  induction Ha as [| x rest Hx Hrest IH]; intros b; simpl; [lia |].
  destruct (mem x b) eqn:E; [| apply IH].
  apply mem_InA, InA_split in E as (b1 & z & b2 & Hxz & ->).
  simpl.
  assert (Hle : (length (filter (fun y => mem y (b1 ++ z :: b2)) rest)
                 <= length (filter (fun y => mem y (b1 ++ b2)) rest))%nat).
  { apply filter_length_le. intros y Hy Hmem.
    apply mem_InA. apply mem_InA in Hmem.
    apply InA_app in Hmem as [H | H]; [apply InA_app_iff; left; exact H |].
    inversion H as [? ? Hyz | ? ? Hin]; subst.
    - exfalso. apply Hx. apply InA_alt. exists y. split; [| exact Hy].
      simpl. apply eqb_trans with z; [exact Hxz |].
      rewrite eqb_sym. exact Hyz.
    - apply InA_app_iff. right. exact Hin. }
  specialize (IH (b1 ++ b2)). rewrite length_app in *. simpl. lia.
Qed.

End SetFacts.

(** ** The range of the score *)

Module ScoreBounds.
Import Py ResultFacts RecommendationEngine RecommendationFacts SetFacts.

Section Facts.
Context {rt : Runtime}.

Lemma price_points_range (b p : Q) :
  0 <= p -> - 5 <= price_points b p <= 30.
Proof.
  intros Hp. unfold price_points.
  destruct (Qltb 0 b) eqn:Eb; [apply Qltb_true in Eb | split; lra].
  destruct (Qleb p b) eqn:Ep; [apply Qleb_true in Ep | split; lra].
  assert (H0 : 0 <= p / b) by (apply Qle_shift_div_l; [exact Eb | lra]).
  assert (H1 : p / b <= 1) by (apply Qle_shift_div_r; [exact Eb | lra]).
  set (q := p / b) in *. split; lra.
Qed.

(** For a positive budget a lower price never earns fewer price points. *)
Lemma price_points_antitone (b p1 p2 : Q) :
  0 < b -> p1 <= p2 -> price_points b p2 <= price_points b p1.
Proof.
  intros Hb Hle. unfold price_points.
  apply Qltb_true in Hb. rewrite Hb. apply Qltb_true in Hb.
  destruct (Qleb p2 b) eqn:E2; [apply Qleb_true in E2 | apply Qleb_false in E2].
  - assert (E1 : p1 <= b) by lra. apply Qleb_true in E1. rewrite E1.
    assert (H : p1 / b <= p2 / b).
    { apply Qle_shift_div_r; [exact Hb |].
      unfold Qdiv. rewrite <- Qmult_assoc, (Qmult_comm (/ b)), Qmult_inv_r; lra. }
    set (q1 := p1 / b) in *. set (q2 := p2 / b) in *. lra.
  - destruct (Qleb p1 b) eqn:E1; [apply Qleb_true in E1 | lra].
    assert (H : p1 / b <= 1) by (apply Qle_shift_div_r; [exact Hb | lra]).
    set (q1 := p1 / b) in *. lra.
Qed.

Lemma rating_points_range (r : Q) : 0 <= rating_points r <= 25.
Proof.
  unfold rating_points, rating10_of_raw, max_, min_.
  destruct (Qltb 10.0 (r * 2.0)) eqn:Emin;
    [apply Qltb_true in Emin | apply Qltb_false in Emin];
  match goal with
  | |- context [Qltb 0.0 ?m] =>
      destruct (Qltb 0.0 m) eqn:Emax;
        [apply Qltb_true in Emax | apply Qltb_false in Emax]
  end; split; lra.
Qed.

Lemma quality_bonus_range (rating10 : Q) : 0 <= quality_bonus rating10 <= 10.
Proof.
  unfold quality_bonus.
  destruct (Qleb 9.0 rating10); [split; lra |].
  destruct (Qleb 8.5 rating10); [split; lra |].
  destruct (Qleb 8.0 rating10); split; lra.
Qed.

Lemma review_points_range (n : Z) (rating10 : Q) :
  5 <= review_points n rating10 <= 15.
Proof.
  unfold review_points.
  destruct (100 <? n)%Z; [split; lra |].
  destruct (50 <? n)%Z; [split; lra |].
  pose proof (quality_bonus_range rating10). split; lra.
Qed.

Lemma amenities_points_range (hotel_amenities pref_amenities : list value) :
  NoDupA (fun a b => eqb a b = true) hotel_amenities ->
  0 <= amenities_points hotel_amenities pref_amenities <= 20.
Proof.
  intros Hdistinct. unfold amenities_points.
  destruct (nonempty pref_amenities && nonempty hotel_amenities) eqn:E;
    [| split; lra].
  apply andb_true_iff in E as [Epref _].
  pose proof (set_inter_length pref_amenities Hdistinct) as Hlen.
  set (m := length (set_inter hotel_amenities pref_amenities)) in *.
  set (t := length pref_amenities) in *.
  assert (Ht : (0 < t)%nat)
    by (subst t; destruct pref_amenities; [discriminate | simpl; lia]).
  assert (Htq : 0 < inject_Z (Z.of_nat t)).
  { change 0 with (inject_Z 0). rewrite <- Zlt_Qlt. lia. }
  assert (H0 : 0 <= inject_Z (Z.of_nat m) / inject_Z (Z.of_nat t)).
  { apply Qle_shift_div_l; [exact Htq |].
    rewrite Qmult_0_l. change 0 with (inject_Z 0). rewrite <- Zle_Qle. lia. }
  assert (H1 : inject_Z (Z.of_nat m) / inject_Z (Z.of_nat t) <= 1).
  { apply Qle_shift_div_r; [exact Htq |].
    rewrite Qmult_1_l. rewrite <- Zle_Qle. lia. }
  set (q := inject_Z (Z.of_nat m) / inject_Z (Z.of_nat t)) in *.
  split; lra.
Qed.

Lemma amenities_score_range (user_prefs hotel : dict) (a : Q) :
  amenities_score user_prefs hotel = Ok a -> 0 <= a <= 20.
Proof.
  unfold amenities_score. intros H.
  apply bind_ok in H as (ha & Hha & H).
  apply bind_ok in H as (pa & _ & H).
  injection H as <-.
  apply amenities_points_range. exact (set_distinct _ Hha).
Qed.

(** X1.  A score that is computed for an offer whose price is not negative
    lies between 0 and 90: the price block adds between -5 and 30, the rating
    block between 0 and 25, the amenity block between 0 and 20, and the review
    block, quality bonus included, between 5 and 15. *)
Theorem score_between_0_and_90 (user_prefs hotel : dict) (p s : Q) :
  price_of hotel = Ok p -> 0 <= p ->
  calculate_score user_prefs hotel = Ok s ->
  0 <= s <= 90.
Proof.
  intros Hp Hpos Hs.
  apply calculate_score_ok in Hs
    as (b & p' & r & a & n & _ & Hp' & _ & Ha & _ & ->).
  rewrite Hp in Hp'. injection Hp' as <-.
  pose proof (price_points_range b Hpos).
  pose proof (rating_points_range r).
  pose proof (amenities_score_range _ _ Ha).
  pose proof (review_points_range n (rating10_of_raw r)).
  split; lra.
Qed.

(** X2.  Under one preference record with a positive budget, an offer whose
    price is lower gets at least as many price points. *)
Theorem cheaper_offer_scores_no_less_on_price
    (user_prefs hotel1 hotel2 : dict) (b p1 p2 : Q) :
  budget_of user_prefs = Ok b -> 0 < b ->
  price_of hotel1 = Ok p1 -> price_of hotel2 = Ok p2 -> p1 <= p2 ->
  exists s1 s2,
    price_score user_prefs hotel1 = Ok s1 /\
    price_score user_prefs hotel2 = Ok s2 /\
    s2 <= s1.
Proof.
  intros Hb Hpos H1 H2 Hle.
  exists (price_points b p1), (price_points b p2).
  unfold price_score. rewrite Hb, H1, H2.
  repeat split. apply price_points_antitone; assumption.
Qed.

End Facts.
End ScoreBounds.

(** ** Ranking again, and what ranking leaves alone *)

Module RankingMore.
Import Py ResultFacts RecommendationEngine RecommendationFacts.

Lemma sorted_rev_general {A} (R : A -> A -> Prop) (l : list A) :
  StronglySorted R l -> StronglySorted (fun a b => R b a) (rev l).
Proof.
  induction l as [| y ys IH]; simpl; intros Hs.
  - constructor.
  - inversion Hs as [| ? ? Hys Hall]; subst.
    apply SortFacts.sorted_snoc; [apply IH; exact Hys |].
    apply Forall_rev. exact Hall.
Qed.

Lemma sort_ascending_fixed {A} (key : A -> Q) (l : list A) :
  StronglySorted (fun a b => key a <= key b) l -> sort_ascending key l = l.
Proof.
  induction 1 as [| x rest Hrest IH Hall]; [reflexivity |].
  simpl. rewrite IH. destruct rest as [| y ys]; [reflexivity |].
  simpl. inversion Hall as [| ? ? Hxy _]; subst.
  apply Qleb_true in Hxy. rewrite Hxy. reflexivity.
Qed.

(** Sorting in descending order a list that is in descending order returns
    it. *)
Lemma sorted_reverse_fixed {A} (key : A -> Q) (l : list A) :
  StronglySorted (fun a b => key b <= key a) l -> sorted key true l = l.
Proof.
  intros Hs. unfold sorted.
  rewrite sort_ascending_fixed.
  - apply rev_involutive.
  - exact (sorted_rev_general Hs).
Qed.

Lemma setitem_twice (k : string) (v : value) (d : dict) :
  setitem k v (setitem k v d) = setitem k v d.
Proof.
  induction d as [| [k' v'] rest IH].
  - simpl. rewrite String.eqb_refl. reflexivity.
  - cbn [setitem]. destruct (String.eqb k k') eqn:E; cbn [setitem].
    + rewrite String.eqb_refl. reflexivity.
    + rewrite E, IH. reflexivity.
Qed.

Lemma get_annotate_other (k : string) (h : dict) (s : Q) :
  k <> "score" -> get (annotate h s) k = get h k.
Proof.
  intros Hk. unfold get, get_default.
  rewrite (lookup_annotate_other h s Hk). reflexivity.
Qed.

Section Facts.
Context {rt : Runtime}.

(** The score of an offer does not depend on a ['score'] item it carries. *)
Lemma calculate_score_annotate (user_prefs h : dict) (s : Q) :
  calculate_score user_prefs (annotate h s) = calculate_score user_prefs h.
Proof.
  unfold calculate_score, price_score, price_of, rating10_of, rating_raw_of,
    amenities_score, review_score, review_count_of.
  rewrite !get_annotate_other by congruence. reflexivity.
Qed.

Lemma score_hotels_fixed (user_prefs : dict) (l : list dict) :
  Forall (fun o => exists s,
            calculate_score user_prefs o = Ok s /\ annotate o s = o) l ->
  score_hotels user_prefs l = Ok l.
Proof.
  induction 1 as [| o rest (s & Hs & Ho) _ IH]; [reflexivity |].
  simpl. rewrite Hs. simpl. rewrite IH. simpl. rewrite Ho. reflexivity.
Qed.

(** X3.  Ranking is idempotent: ranking the result of [rank_hotels] again,
    against the same preferences, returns that result unchanged. *)
Theorem rank_hotels_idempotent (hotels ranked : list dict) (user_prefs : dict) :
  rank_hotels hotels user_prefs = Ok ranked ->
  rank_hotels ranked user_prefs = Ok ranked.
Proof.
  intros H. unfold rank_hotels in H.
  apply bind_ok in H as (scored & Hscored & H).
  injection H as Hranked.
  assert (Hperm : Permutation scored ranked).
  { rewrite <- Hranked. apply Permutation_sym.
    exact (SortFacts.sorted_reverse_perm score_key scored). }
  assert (Hsorted : StronglySorted (fun a b => score_key b <= score_key a) ranked).
  { rewrite <- Hranked. exact (SortFacts.sorted_reverse_descending score_key scored). }
  assert (Hfixed : Forall (fun o => exists s,
                     calculate_score user_prefs o = Ok s /\ annotate o s = o) ranked).
  { eapply Permutation_Forall; [exact Hperm |].
    apply score_hotels_spec in Hscored.
    clear - Hscored. induction Hscored as [| h o l l' (s & Hs & -> & _) _ IH];
      constructor; [| exact IH].
    exists s. split.
    - rewrite calculate_score_annotate. exact Hs.
    - apply setitem_twice. }
  unfold rank_hotels. rewrite score_hotels_fixed by exact Hfixed. simpl.
  f_equal. apply (sorted_reverse_fixed score_key). exact Hsorted.
Qed.

(** X4.  Ranking changes nothing but the score: every offer of the result
    agrees with an offer of the input on every item other than ['score'],
    and its ['score'] item is the score computed for that input offer, also
    when the input offer carried a ['score'] item of its own. *)
Theorem rank_hotels_only_adds_score (hotels ranked : list dict) (user_prefs : dict) :
  rank_hotels hotels user_prefs = Ok ranked ->
  forall o, In o ranked ->
    exists h s,
      In h hotels /\
      calculate_score user_prefs h = Ok s /\
      lookup "score" o = Some (VFloat s) /\
      forall k, k <> "score" -> lookup k o = lookup k h.
Proof.
  intros H o Ho. unfold rank_hotels in H.
  apply bind_ok in H as (scored & Hscored & H).
  injection H as Hranked.
  assert (Hin : In o scored).
  { eapply Permutation_in; [| exact Ho]. rewrite <- Hranked.
    exact (SortFacts.sorted_reverse_perm score_key scored). }
  apply score_hotels_spec in Hscored.
  clear - Hscored Hin.
  induction Hscored as [| h o' l l' (s & Hs & -> & _) _ IH]; [contradiction |].
  destruct Hin as [<- | Hin].
  - exists h, s. split; [left; reflexivity |]. split; [exact Hs |].
    split; [apply lookup_setitem |].
    intros k Hk. apply lookup_annotate_other. exact Hk.
  - destruct (IH Hin) as (h' & s' & Hh & Hrest).
    exists h', s'. split; [right; exact Hh | exact Hrest].
Qed.

End Facts.
End RankingMore.

(** ** The turn again *)

Module TurnMore.
Import Py ResultFacts Views ChatbotAIEngine TurnFacts.

Section Facts.
Context {rt : Runtime}.

(** X5.  Merging the same intent record a second time changes nothing: the
    merge is idempotent. *)
Theorem update_preferences_idempotent
    (d : dict) (prefs prefs' : UserSearchPreference) :
  update_preferences (VDict d) prefs = Ok prefs' ->
  update_preferences (VDict d) prefs' = Ok prefs'.
Proof.
  intros H. unfold update_preferences in *.
  repeat (rewrite ?assign_if_truthy_dict, ?assign_guests_dict,
            ?assign_budget_max_dict in H; cbn [bind] in H).
  repeat (rewrite ?assign_if_truthy_dict, ?assign_guests_dict,
            ?assign_budget_max_dict; cbn [bind]).
  injection H as <-. f_equal.
  destruct (truthy (get d "location"));
    destruct (truthy (get d "check_in"));
    destruct (truthy (get d "check_out"));
    destruct (truthy (get d "preferences"));
    destruct (truthy (get d "guests"));
    destruct (is_not_none (get d "budget_max"));
    try destruct (int_ (get d "guests"));
    try destruct (float_ (get d "budget_max"));
    destruct prefs; reflexivity.
Qed.

(** X6.  A completion that is JSON but not an object is handed on as it is by
    [parse_user_intent]; reading the intent of that value and merging it both
    raise [AttributeError]. *)
Theorem json_that_is_no_object_breaks_the_turn
    (api_key : value) (resp : response) (body : dict) (text : string)
    (parsed : value) (prefs : UserSearchPreference) :
  truthy api_key = true ->
  status_code resp = 200%Z ->
  json resp = Ok (VDict body) ->
  truthy (get body "choices") = true ->
  response_text_of (get body "choices") = Ok text ->
  json_loads text = Some parsed ->
  (forall d, parsed <> VDict d) ->
  parse_user_intent api_key (Responded resp) = parsed /\
  turn_intent parsed = Raise AttributeError /\
  update_preferences parsed prefs = Raise AttributeError.
Proof.
  intros Hkey Hst Hjson Hch Htext Hloads Hshape.
  split; [| split].
  - unfold parse_user_intent. rewrite Hkey. cbn [negb].
    unfold read_completion. cbn [bind]. rewrite Hst. cbn [Z.eqb negb].
    change (Pos.eqb 200 200) with true. cbn [negb].
    rewrite Hjson. cbn [bind call_get]. fold (get body "choices").
    unfold or_. rewrite Hch, Hch. cbn [negb].
    rewrite Htext. cbn [bind]. rewrite Hloads. reflexivity.
  - destruct parsed; try reflexivity. exfalso. eapply Hshape. reflexivity.
  - destruct parsed; try reflexivity. exfalso. eapply Hshape. reflexivity.
Qed.

End Facts.
End TurnMore.

(** ** The adapter again *)

Module AdapterMore.
Import Py ResultFacts RecommendationEngine RecommendationFacts ChatbotAIEngine.
Import MakcorpsClient AdapterFacts.

Lemma price_char_clean (c : ascii) :
  price_char c = true ->
  price_char (if Ascii.eqb c "," then "."%char else c) = true /\
  Ascii.eqb (if Ascii.eqb c "," then "."%char else c) "," = false.
Proof.
  intros H. destruct (Ascii.eqb c ",") eqn:E.
  - split; reflexivity.
  - split; assumption.
Qed.

(** X7.  What [clean_price] leaves of a price text consists of digits and
    dots only (every comma has become a dot), and cleaning the result again
    changes nothing. *)
Theorem clean_price_digits_and_dots (p : string) :
  Forall (fun c => price_char c = true /\ c <> ","%char)
         (list_ascii_of_string (clean_price p)) /\
  clean_price (clean_price p) = clean_price p.
Proof.
  induction p as [| c rest [IHchars IHidem]]; simpl.
  - split; [constructor | reflexivity].
  - destruct (price_char c) eqn:E; [| split; assumption].
    destruct (price_char_clean c E) as [Hchar Hcomma].
    split.
    + simpl. constructor; [| exact IHchars].
      split; [exact Hchar |].
      intros Heq. rewrite Heq in Hcomma. discriminate Hcomma.
    + simpl. rewrite Hchar, Hcomma, IHidem. reflexivity.
Qed.

Section Facts.
Context {rt : Runtime}.
Variable provider : trace -> request -> value.
Variable self : client.

Local Abbreviation city_request cityid checkin checkout adults rooms currency pagination :=
  ("/city",
   setitem "api_key" (api_key self)
     (city_params cityid checkin checkout adults rooms currency pagination)).

Local Abbreviation mapping_request name :=
  ("/mapping", setitem "api_key" (api_key self) [("name", name)]).

Local Abbreviation booking_request location check_in check_out guests :=
  ("/booking",
   setitem "api_key" (api_key self)
     (booking_params location check_in check_out guests)).

Local Abbreviation is_dict :=
  (fun v : value => match v with VDict _ => true | _ => false end).

Lemma normalized_raw (items : list value) :
  map (fun o => get o "raw") (normalize_city_items items) = filter is_dict items.
Proof.
  induction items as [| v rest IH]; [reflexivity |].
  destruct v; simpl; try exact IH.
  f_equal. exact IH.
Qed.

(** X8.  When the body of the city search is a list, [search_by_city_id]
    returns, whatever the entries are: one offer for each entry that is a
    dictionary, in the order of the body, each holding its entry under
    ['raw']; the other entries are skipped. *)
Theorem city_search_keeps_each_record
    (cityid checkin checkout adults rooms currency pagination : value)
    (tr : trace) (items : list value) :
  provider tr (city_request cityid checkin checkout adults rooms currency pagination)
  = VList items ->
  exists offers,
    search_by_city_id provider self cityid checkin checkout adults rooms
      currency pagination tr
    = (Ok offers,
       tr ++ [city_request cityid checkin checkout adults rooms currency pagination]) /\
    map (fun o => get o "raw") offers = filter is_dict items /\
    length offers = length (filter is_dict items).
Proof.
  intros Hbody. unfold search_by_city_id, io_bind, _get. rewrite Hbody.
  destruct items as [| v rest].
  - exists []. repeat split.
  - exists (normalize_city_items (v :: rest)).
    split; [reflexivity |].
    split; [apply normalized_raw |].
    rewrite <- (normalized_raw (v :: rest)). rewrite length_map. reflexivity.
Qed.



(** X10.  The reply lines of an offer of a city search, ranked or not, show
    the placeholder for the name and ['N/A'] for the price, and no booking
    link: the normalizer stores the name under ['vendor_name'] and the price
    under ['price'], the reply reads ['name'] and ['price_per_night']. *)
Theorem makcorps_offer_reply_lines (item : dict) (i : nat) :
  let offer := normalize_city_item item in
  let lines :=
    [ (str_of (VInt (Z.of_nat i)) ++ ". " ++ str_of (VStr "—") ++ " — ⭐ "
         ++ str_of (get offer "rating") ++ "/10")%string;
      ("    " ++ str_of (VStr "N/A") ++ "€/nuit — "
         ++ str_of (get offer "location"))%string;
      EmptyString ] in
  hotel_lines i offer = lines /\
  forall s, hotel_lines i (annotate offer s) = lines.
Proof.
  split; [reflexivity | intros s; reflexivity].
Qed.

End Facts.
End AdapterMore.

(** ** The requests of a search *)

Module TraceFacts.
Import Py ResultFacts MakcorpsClient AdapterFacts ResolutionFacts RecommendationFacts.

Section Facts.
Context {rt : Runtime}.
Variable provider : trace -> request -> value.
Variable self : client.

Local Abbreviation keyed :=
  (fun req : request =>
     In (fst req) ["/city"; "/mapping"; "/booking"] /\
     lookup "api_key" (snd req) = Some (api_key self)).

Lemma city_request_keyed
    (cityid checkin checkout adults rooms currency pagination : value) :
  keyed ("/city",
         setitem "api_key" (api_key self)
           (city_params cityid checkin checkout adults rooms currency pagination)).
Proof. split; [simpl; auto | apply lookup_setitem]. Qed.

Lemma mapping_request_keyed (name : value) :
  keyed ("/mapping", setitem "api_key" (api_key self) [("name", name)]).
Proof. split; [simpl; auto | apply lookup_setitem]. Qed.

Lemma booking_request_keyed (location check_in check_out guests : value) :
  keyed ("/booking",
         setitem "api_key" (api_key self)
           (booking_params location check_in check_out guests)).
Proof. split; [simpl; auto | apply lookup_setitem]. Qed.

Lemma search_by_name_trace
    (location check_in check_out guests : value) (tr : trace) :
  exists more,
    snd (search_by_name provider self location check_in check_out guests tr)
    = tr ++ ("/mapping", setitem "api_key" (api_key self) [("name", location)])
            :: more /\
    (length more <= 1)%nat /\ Forall keyed more.
Proof.
  pose proof (choose_request_sent provider self location tr) as Hsent.
  destruct (_choose_id_from_mapping provider self location tr)
    as [[city_id | e'] tr1] eqn:Hc; cbn [snd] in Hsent; subst tr1.
  - destruct (@search_by_name_resolved rt provider self location check_in
                check_out guests _ _ _ Hc) as [Hyes Hno].
    destruct (truthy city_id) eqn:Ht.
    + rewrite (Hyes eq_refl), search_by_city_id_request.
      rewrite <- app_assoc. eexists. split; [reflexivity |].
      split; [simpl; lia |].
      constructor; [apply city_request_keyed | constructor].
    + destruct (Hno eq_refl) as [-> _].
      rewrite <- app_assoc. eexists. split; [reflexivity |].
      split; [simpl; lia |].
      constructor; [apply booking_request_keyed | constructor].
  - unfold search_by_name, io_bind at 1. rewrite Hc.
    exists []. split; [reflexivity |]. split; [simpl; lia | constructor].
Qed.

(** X11.  A call of [search_hotels] sends at least one and at most three
    requests to the provider, each to [/city], [/mapping] or [/booking], and
    each carrying the client's key under ['api_key']. *)
Theorem search_hotels_sends_one_to_three_requests
    (location check_in check_out guests : value) (tr : trace) :
  exists sent,
    snd (search_hotels provider self location check_in check_out guests tr)
    = tr ++ sent /\
    (1 <= length sent <= 3)%nat /\
    Forall keyed sent.
Proof.
  unfold search_hotels, io_try, io_bind at 1, io_lift.
  destruct (int_ location) as [val | e].
  - pose proof (search_by_city_id_request provider self (VInt val) check_in
                  check_out guests (VInt 1) (VStr "EUR") (VInt 0) tr) as Hreq.
    destruct (search_by_city_id provider self (VInt val) check_in check_out
                guests (VInt 1) (VStr "EUR") (VInt 0) tr) as [[offers | e] tr1];
      cbn [snd] in Hreq; subst tr1.
    + eexists. split; [reflexivity |]. split; [simpl; lia |].
      constructor; [apply city_request_keyed | constructor].
    + match goal with
      | |- context [search_by_name _ _ _ _ _ _ ?t] =>
          destruct (search_by_name_trace location check_in check_out guests t)
            as (more & -> & Hlen & Hkeyed)
      end.
      rewrite <- app_assoc. eexists. split; [reflexivity |].
      split; [unfold request in *; simpl; lia |].
      constructor; [apply city_request_keyed |].
      constructor; [apply mapping_request_keyed | exact Hkeyed].
  - destruct (search_by_name_trace location check_in check_out guests tr)
      as (more & -> & Hlen & Hkeyed).
    eexists. split; [reflexivity |].
    split; [unfold request in *; simpl; lia |].
    constructor; [apply mapping_request_keyed | exact Hkeyed].
Qed.

End Facts.
End TraceFacts.

(** ** The hotel search *)

Module HotelSearchFacts.
Import Py ResultFacts MakcorpsClient MakcorpsHotel.

Local Abbreviation priced :=
  (fun price : value => price = VNone \/ truthy price = true).

Lemma numbered_price_dict (d : dict) (keys : list (string * string)) :
  exists price name,
    numbered_price (VDict d) keys = Ok (price, name) /\ priced price.
Proof.
  induction keys as [| [price_key vendor_key] rest IH]; simpl.
  - exists VNone, VNone. split; [reflexivity | left; reflexivity].
  - destruct (lookup price_key d) as [p |] eqn:E; simpl.
    + unfold get_default. rewrite E.
      destruct (truthy p) eqn:Ep; simpl.
      * do 2 eexists. split; [reflexivity | right; exact Ep].
      * exact IH.
    + exact IH.
Qed.

Lemma first_item_truthy (p : string) (items : dict) (val : value) :
  first_item (fun k v => lower_startswith p k && truthy v) items = Some val ->
  truthy val = true.
Proof.
  induction items as [| [k v] rest IH]; simpl; [discriminate |].
  destruct (lower_startswith p k && truthy v) eqn:E.
  - intros H. injection H as <-. apply andb_true_iff in E. tauto.
  - exact IH.
Qed.

(** A vendor entry that is a dictionary always gives a result, which holds
    the entry itself and a price that is truthy or [None]. *)
Lemma vendor_result_dict (d : dict) :
  exists name price,
    vendor_result (VDict d)
    = Ok [("vendor", name); ("price", price); ("raw", VDict d)] /\
    priced price.
Proof.
  unfold vendor_result.
  destruct (numbered_price_dict d numbered_keys) as (price & name & -> & Hp).
  cbn [bind fst snd items_].
  destruct (truthy price) eqn:Ep; cbn [negb bind].
  - destruct (negb (truthy name)); cbn [bind]; do 2 eexists;
      (split; [reflexivity | right; exact Ep]).
  - destruct Hp as [-> | Hp]; [| congruence].
    destruct (first_item (fun k val => lower_startswith "price" k && truthy val) d)
      as [val |] eqn:Ef.
    + apply first_item_truthy in Ef.
      destruct (negb (truthy name)); cbn [bind]; do 2 eexists;
        (split; [reflexivity | right; exact Ef]).
    + destruct (negb (truthy name)); cbn [bind]; do 2 eexists;
        (split; [reflexivity | left; reflexivity]).
Qed.

Lemma vendor_results_dicts (ds : list dict) :
  exists results,
    map_result vendor_result (map VDict ds) = Ok results /\
    map (fun r => get r "raw") results = map VDict ds /\
    Forall (fun r => priced (get r "price")) results.
Proof.
  induction ds as [| d rest (results & Hres & Hraw & Hprice)]; simpl.
  - exists []. repeat split. constructor.
  - destruct (vendor_result_dict d) as (name & price & -> & Hp).
    cbn [bind]. rewrite Hres. cbn [bind].
    eexists. split; [reflexivity |].
    split; [simpl; f_equal; exact Hraw |].
    constructor; [exact Hp | exact Hprice].
Qed.

Lemma numbered_price_not_dict (v : value) (keys : list (string * string)) :
  (forall d, v <> VDict d) ->
  numbered_price v keys = Ok (VNone, VNone) \/
  exists e, numbered_price v keys = Raise e.
Proof.
  intros Hv. induction keys as [| [price_key vendor_key] rest IH]; simpl.
  - left. reflexivity.
  - destruct v as [| b | n | x | s | l | d];
      try (right; eexists; reflexivity).
    + simpl. destruct (String.index 0 price_key s); simpl.
      * right. eexists. reflexivity.
      * exact IH.
    + simpl. destruct (mem (VStr price_key) l); simpl.
      * right. eexists. reflexivity.
      * exact IH.
    + exfalso. exact (Hv d eq_refl).
Qed.

(** A vendor entry that is not a dictionary cannot be read. *)
Lemma vendor_result_not_dict (v : value) :
  (forall d, v <> VDict d) -> exists e, vendor_result v = Raise e.
Proof.
  intros Hv. unfold vendor_result.
  destruct (numbered_price_not_dict numbered_keys Hv) as [-> | [e ->]].
  - cbn [bind fst snd truthy negb].
    destruct v; try (eexists; reflexivity).
    exfalso. eapply Hv. reflexivity.
  - eexists. reflexivity.
Qed.

Lemma map_result_raises {A B} (f : A -> result B) (l : list A) (x : A) :
  In x l -> (exists e, f x = Raise e) -> exists e, map_result f l = Raise e.
Proof.
  induction l as [| y rest IH]; simpl; [contradiction |].
  intros [-> | Hin] Hx.
  - destruct Hx as [e ->]. eexists. reflexivity.
  - destruct (f y); [| eexists; reflexivity].
    simpl. destruct (IH Hin Hx) as [e ->]. eexists. reflexivity.
Qed.

Section Facts.
Variable provider : trace -> request -> value.
Variable self : client.

Local Abbreviation hotel_request hotelid checkin checkout adults rooms currency :=
  ("/hotel",
   setitem "api_key" (api_key self)
     (hotel_params hotelid checkin checkout adults rooms currency)).

(** X12.  When the answer of the hotel search is a dictionary whose
    ['comparison'] starts with a list of vendor dictionaries,
    [search_by_hotel_id] returns one offer per vendor, in their order: each
    holds its vendor entry under ['raw'] and the requested identifier under
    ['hotel_id'], has no rating, and has a price that is truthy or [None]. *)
Theorem hotel_search_one_offer_per_vendor
    (hotelid checkin checkout adults rooms currency : value) (tr : trace)
    (body : dict) (vendors : list dict) (more : list value) :
  provider tr (hotel_request hotelid checkin checkout adults rooms currency)
  = VDict body ->
  get body "comparison" = VList (VList (map VDict vendors) :: more) ->
  exists offers,
    search_by_hotel_id provider self hotelid checkin checkout adults rooms
      currency tr
    = (Ok offers,
       tr ++ [hotel_request hotelid checkin checkout adults rooms currency]) /\
    map (fun o => get o "raw") offers = map VDict vendors /\
    Forall (fun o => get o "hotel_id" = hotelid /\
                     get o "rating" = VNone /\
                     priced (get o "price")) offers.
Proof.
  intros Hbody Hcomparison.
  unfold search_by_hotel_id, io_bind at 1, _get. rewrite Hbody.
  assert (Htruthy : truthy (VDict body) = true).
  { destruct body; [discriminate Hcomparison | reflexivity]. }
  rewrite Htruthy. cbn [negb].
  unfold io_bind, io_lift, hotel_results. rewrite Hcomparison.
  cbn [truthy len_ length bind Nat.ltb Nat.leb subscript nth_error iter].
  destruct (vendor_results_dicts vendors) as (results & -> & Hraw & Hprice).
  eexists. split; [reflexivity |]. split.
  - rewrite <- Hraw. clear. induction results; simpl; [reflexivity | f_equal; assumption].
  - clear - Hprice. induction Hprice; constructor; [| assumption].
    repeat split. assumption.
Qed.

(** X13.  A vendor entry that is not a dictionary is not skipped: the whole
    hotel search raises. *)
Theorem hotel_search_raises_on_odd_vendor
    (hotelid checkin checkout adults rooms currency : value) (tr : trace)
    (body : dict) (vendors more : list value) (v : value) :
  provider tr (hotel_request hotelid checkin checkout adults rooms currency)
  = VDict body ->
  get body "comparison" = VList (VList vendors :: more) ->
  In v vendors -> (forall d, v <> VDict d) ->
  exists e,
    fst (search_by_hotel_id provider self hotelid checkin checkout adults rooms
           currency tr) = Raise e.
Proof.
  intros Hbody Hcomparison Hin Hv.
  unfold search_by_hotel_id, io_bind at 1, _get. rewrite Hbody.
  assert (Htruthy : truthy (VDict body) = true).
  { destruct body; [discriminate Hcomparison | reflexivity]. }
  rewrite Htruthy. cbn [negb].
  unfold io_bind, io_lift, hotel_results. rewrite Hcomparison.
  cbn [truthy len_ length bind Nat.ltb Nat.leb subscript nth_error iter].
  destruct (map_result_raises vendor_result vendors v Hin
              (vendor_result_not_dict Hv)) as [e ->].
  exists e. reflexivity.
Qed.

End Facts.
End HotelSearchFacts.

(** ** The Sanity lookup, the Makcorps reply and the orchestration *)

Module OrchestrationFacts.
Import Py ResultFacts ChatbotAIEngine MakcorpsHotel Orchestration.

Section Facts.
Context {rt : Runtime}.
Variable json_dumps : value -> string.
Variable completion : string -> post_outcome.
Variable sanity : string -> post_outcome.
Variable makcorps_post : string -> value -> post_outcome.
Variable self : engine.

(** X14.  [query_sanity_groq] gives the empty list on every failure: what it
    returns is either the empty list, or the truthy ['result'] item of a
    dictionary that came with status 200, as it is. *)
Theorem query_sanity_groq_result_or_empty (groq_query : string) :
  query_sanity_groq sanity self groq_query = VList [] \/
  exists resp payload r,
    truthy (sanity_project_id self) = true /\
    sanity groq_query = Responded resp /\
    status_code resp = 200%Z /\
    json resp = Ok (VDict payload) /\
    lookup "result" payload = Some r /\
    truthy r = true /\
    query_sanity_groq sanity self groq_query = r.
Proof.
  unfold query_sanity_groq.
  destruct (truthy (sanity_project_id self)) eqn:Hid; [| left; reflexivity].
  cbn [negb].
  destruct (sanity groq_query) as [resp | e] eqn:Hs; [| left; reflexivity].
  cbn [outcome bind].
  destruct (status_code resp =? 200)%Z eqn:Hst; [| left; reflexivity].
  cbn [negb].
  destruct (json resp) as [payload | e] eqn:Hj; [| left; reflexivity].
  cbn [bind].
  destruct payload as [| b | n | x | s | l | d]; try (left; reflexivity).
  cbn [call_get bind]. unfold get_default, or_.
  destruct (lookup "result" d) as [r |] eqn:Hr; [| left; reflexivity].
  destruct (truthy r) eqn:Ht; [| left; reflexivity].
  right. exists resp, d, r.
  apply Z.eqb_eq in Hst. repeat split; try assumption; reflexivity.
Qed.

(** X15.  [call_makcorps] on an answer with status 200 or 201 whose body is
    a dictionary returns the item under the first of ['reply'], ['text'],
    ['message'], ['output'] that the body has, as it is, and the body
    written as JSON when it has none of them. *)
Theorem call_makcorps_first_known_key
    (prompt : string) (context : value) (resp : response) (d : dict) :
  truthy (makcorps_url self) = true ->
  makcorps_post prompt context = Responded resp ->
  (status_code resp = 200 \/ status_code resp = 201)%Z ->
  json resp = Ok (VDict d) ->
  call_makcorps json_dumps makcorps_post self prompt context
  = match lookup "reply" d with
    | Some v => v
    | None =>
        match lookup "text" d with
        | Some v => v
        | None =>
            match lookup "message" d with
            | Some v => v
            | None =>
                match lookup "output" d with
                | Some v => v
                | None => VStr (json_dumps (VDict d))
                end
            end
        end
    end.
Proof.
  intros Hurl Hpost Hst Hjson.
  unfold call_makcorps. rewrite Hurl, Hpost. cbn [negb outcome bind].
  assert (Hok : ((status_code resp =? 200)%Z || (status_code resp =? 201)%Z) = true).
  { destruct Hst as [-> | ->]; reflexivity. }
  rewrite Hok, Hjson. cbn [negb bind first_key contains subscript_key].
  unfold getitem.
  destruct (lookup "reply" d); [reflexivity |]. cbn [bind].
  destruct (lookup "text" d); [reflexivity |]. cbn [bind].
  destruct (lookup "message" d); [reflexivity |]. cbn [bind].
  destruct (lookup "output" d); reflexivity.
Qed.

(** X16.  [orchestrate_response] has no handler of its own: when the
    extractor hands on a value that is not a dictionary (a completion that is
    JSON but not an object), it raises [AttributeError] to its caller. *)
Theorem orchestrate_response_raises_on_non_object (user_message : string) :
  (forall d, parse_user_intent (api_key self) (completion user_message) <> VDict d) ->
  orchestrate_response json_dumps completion sanity makcorps_post self user_message
  = Raise AttributeError.
Proof.
  intros Hshape. unfold orchestrate_response.
  destruct (parse_user_intent (api_key self) (completion user_message));
    try reflexivity.
  exfalso. eapply Hshape. reflexivity.
Qed.

End Facts.

(** X17.  Sanity is consulted only for a search with a location: when the
    intent of the record is not ['search'], or its location is falsy, the
    result of [orchestrate_response] has no recommendations and is the same
    whatever the Sanity endpoint would answer. *)
Theorem orchestrate_response_without_lookup {rt : Runtime}
    (json_dumps : value -> string) (completion : string -> post_outcome)
    (sanity1 sanity2 : string -> post_outcome)
    (makcorps_post : string -> value -> post_outcome) (self : engine)
    (user_message : string) (d : dict) :
  parse_user_intent (api_key self) (completion user_message) = VDict d ->
  eqb (get_default d "intent" (VStr "help")) (VStr "search") = false \/
  truthy (get d "location") = false ->
  orchestrate_response json_dumps completion sanity1 makcorps_post self user_message
  = orchestrate_response json_dumps completion sanity2 makcorps_post self user_message
  /\
  exists reply,
    orchestrate_response json_dumps completion sanity1 makcorps_post self user_message
    = Ok (VDict [("reply", reply);
                 ("intent", get_default d "intent" (VStr "help"));
                 ("recommendations", VList [])]).
Proof.
  intros Hparsed Hskip.
  assert (Hlookup : forall sanity,
            lookup_recommendations sanity self
              (get_default d "intent" (VStr "help")) (VDict d) = Ok (VList [])).
  { intros sanity. unfold lookup_recommendations.
    destruct (eqb (get_default d "intent" (VStr "help")) (VStr "search")) eqn:E;
      [| reflexivity].
    destruct Hskip as [H | H]; [discriminate H |].
    cbn [call_get bind]. fold (get d "location"). rewrite H. reflexivity. }
  unfold orchestrate_response. rewrite Hparsed. cbn [call_get bind].
  rewrite !Hlookup. cbn [bind prompt_summary truthy].
  split; [reflexivity |]. eexists. reflexivity.
Qed.

End OrchestrationFacts.

(** ** The whole turn *)

Module SendMessageFacts.
Import Py ResultFacts Views RecommendationEngine RecommendationFacts.
Import ChatbotAIEngine SendMessage RankingMore.

Lemma In_firstn {A} (n : nat) (l : list A) (x : A) :
  In x (firstn n l) -> In x l.
Proof.
  intros H. rewrite <- (firstn_skipn n l). apply in_or_app. left. exact H.
Qed.

Section Facts.
Context {rt : Runtime}.
Variable svc : services.

(** The storage accepts what it is given. *)
Local Abbreviation storage_accepts :=
  ((forall sender text intent, create_message svc sender text intent = Ok tt) /\
   (forall prefs, save_preferences svc prefs = Ok tt) /\
   (forall row, create_recommendation svc row = Ok tt)).

Local Abbreviation search_event prefs :=
  (Searched (location prefs) (str_of (check_in prefs)) (str_of (check_out prefs))
     (guests prefs)).

Local Abbreviation failed_reply :=
  (Response [("error", VStr "Failed to process message")] 400).

(** An offer that was ranked has a review count that [int] reads: building
    its row cannot fail. *)
Lemma ranked_offer_has_a_row (hotels ranked : list dict) (user_prefs : dict) :
  rank_hotels hotels user_prefs = Ok ranked ->
  forall o, In o ranked -> returns (recommendation_row o).
Proof.
  intros H o Ho. unfold rank_hotels in H.
  apply bind_ok in H as (scored & Hscored & H). injection H as Hranked.
  assert (Hin : In o scored).
  { eapply Permutation_in; [| exact Ho]. rewrite <- Hranked.
    exact (SortFacts.sorted_reverse_perm score_key scored). }
  apply score_hotels_spec in Hscored. clear - Hscored Hin.
  induction Hscored as [| h o' l l' (s & Hs & -> & _) _ IH]; [contradiction |].
  destruct Hin as [<- | Hin]; [| exact (IH Hin)].
  apply calculate_score_ok in Hs as (_ & _ & _ & _ & n & _ & _ & _ & _ & Hn & _).
  unfold recommendation_row. unfold review_count_of in Hn.
  rewrite !get_annotate_other by congruence.
  rewrite Hn. eexists. reflexivity.
Qed.

Lemma rows_of_ranked (hotels ranked : list dict) (user_prefs : dict) (l : list dict) :
  rank_hotels hotels user_prefs = Ok ranked ->
  incl l ranked ->
  exists rows,
    MakcorpsClient.map_result recommendation_row l = Ok rows /\
    length rows = length l.
Proof.
  intros Hrank. induction l as [| o rest IH]; intros Hincl; simpl.
  - exists []. split; reflexivity.
  - assert (Hrow : returns (recommendation_row o))
      by (eapply ranked_offer_has_a_row;
          [exact Hrank | apply Hincl; left; reflexivity]).
    destruct Hrow as [row ->].
    destruct IH as (rows & -> & Hlen).
    { intros x Hx. apply Hincl. right. exact Hx. }
    eexists. split; [reflexivity | simpl; f_equal; exact Hlen].
Qed.

Lemma save_recommendations_run (l : list dict) (rows : list dict) (log : list event) :
  (forall row, create_recommendation svc row = Ok tt) ->
  MakcorpsClient.map_result recommendation_row l = Ok rows ->
  save_recommendations svc l log = (Ok tt, log ++ map RecommendationCreated rows).
Proof.
  intros Hcreate. revert rows log.
  induction l as [| o rest IH]; simpl; intros rows log Hrows.
  - injection Hrows as <-. unfold ret. rewrite app_nil_r. reflexivity.
  - apply bind_ok in Hrows as (row & Hrow & Hrows).
    apply bind_ok in Hrows as (rows' & Hrows' & Hrows).
    injection Hrows as <-.
    unfold then_ at 1, lift. rewrite Hrow.
    unfold then_ at 1, write. rewrite Hcreate.
    rewrite (IH rows' _ Hrows'). simpl. rewrite <- app_assoc. reflexivity.
Qed.

(** X18.  A turn that searches and finds offers, with a storage that accepts
    what it is given: the offers are ranked, a row is stored for each of the
    first ten of the ranking (building a row cannot fail once the offers are
    ranked), and the reply, with status 200, carries the payloads of the
    first five and the text [generate_response] writes for them.  The events
    are, in order: the user's message, the merged preferences, the search,
    the rows, the bot's message. *)
Theorem send_message_saves_ten_returns_five
    (prefs prefs' : UserSearchPreference) (user_text : string)
    (intent_data intent : value) (hotels ranked : list dict) (pd : dict)
    (payload : list value) (log : list event) :
  user_text <> EmptyString ->
  storage_accepts ->
  turn_intent intent_data = Ok intent ->
  update_preferences intent_data prefs = Ok prefs' ->
  searches intent prefs' = true ->
  search_hotels svc (location prefs') (str_of (check_in prefs'))
    (str_of (check_out prefs')) (guests prefs') = Ok hotels ->
  hotels <> [] ->
  prefs_dict prefs' = Ok pd ->
  rank_hotels hotels pd = Ok ranked ->
  MakcorpsClient.map_result payload_rec (firstn 5 ranked) = Ok payload ->
  exists rows,
    MakcorpsClient.map_result recommendation_row (firstn 10 ranked) = Ok rows /\
    length rows = Nat.min 10 (length hotels) /\
    length payload = Nat.min 5 (length hotels) /\
    send_message svc (Some prefs) user_text intent_data log
    = (Ok (Response
             [ ("bot_response", VStr (generate_response intent (firstn 5 ranked)));
               ("intent", intent);
               ("recommendations", VList payload) ] 200),
       log ++ [MessageCreated "user" user_text None; PreferencesSaved prefs';
               search_event prefs']
           ++ map RecommendationCreated rows
           ++ [MessageCreated "bot" (generate_response intent (firstn 5 ranked))
                 (Some intent)]).
Proof.
  intros Htext (Hmsg & Hsave & Hcreate) Hintent Hmerge Hgate Hsearch Hne Hpd
    Hrank Hpayload.
  assert (Hrows : exists rows,
            MakcorpsClient.map_result recommendation_row (firstn 10 ranked) = Ok rows /\
            length rows = length (firstn 10 ranked)).
  { eapply rows_of_ranked; [exact Hrank |].
    intros x Hx. eapply In_firstn. exact Hx. }
  destruct Hrows as (rows & Hrows & Hlen).
  assert (Hranked_len : length ranked = length hotels).
  { unfold rank_hotels in Hrank.
    apply bind_ok in Hrank as (scored & Hscored & H). injection H as <-.
    transitivity (length scored).
    - apply Permutation_length.
      exact (SortFacts.sorted_reverse_perm score_key scored).
    - symmetry. apply score_hotels_spec in Hscored.
      exact (Forall2_length Hscored). }
  exists rows. split; [exact Hrows |].
  split; [rewrite Hlen, length_firstn, Hranked_len; reflexivity |].
  split.
  { clear - Hpayload Hranked_len. rewrite <- Hranked_len, <- length_firstn.
    revert payload Hpayload. generalize (firstn 5 ranked) as l.
    induction l as [| x rest IH]; simpl; intros payload H.
    - injection H as <-. reflexivity.
    - apply bind_ok in H as (y & _ & H). apply bind_ok in H as (ys & Hys & H).
      injection H as <-. simpl. f_equal. exact (IH _ Hys). }
  assert (Hnonempty : nonempty hotels = true)
    by (destruct hotels; [contradiction | reflexivity]).
  apply String.eqb_neq in Htext.
  unfold send_message, process_message, get_recommendations, search_and_rank.
  rewrite Htext.
  unfold catch, then_, write, call, lift, ret.
  rewrite Hmsg, Hintent, Hmerge, Hsave, Hgate, Hsearch.
  cbv beta iota. rewrite Hnonempty, Hpd. cbv beta iota. rewrite Hrank.
  cbv beta iota.
  erewrite save_recommendations_run by eassumption.
  cbn [fst snd String.eqb]. rewrite Hmsg, Hpayload.
  f_equal. repeat rewrite <- app_assoc. reflexivity.
Qed.


(** X20.  A turn that does not search (its intent is not ['search'], or the
    merged preferences lack a location or a date) asks nothing of the search
    client and stores no row: with a storage that accepts what it is given
    the events are the user's message, the merged preferences and the bot's
    message, and the reply, with status 200, has no recommendations and the
    text [generate_response] writes for the intent alone. *)
Theorem send_message_without_search
    (prefs prefs' : UserSearchPreference) (user_text : string)
    (intent_data intent : value) (log : list event) :
  user_text <> EmptyString ->
  storage_accepts ->
  turn_intent intent_data = Ok intent ->
  update_preferences intent_data prefs = Ok prefs' ->
  searches intent prefs' = false ->
  send_message svc (Some prefs) user_text intent_data log
  = (Ok (Response
           [ ("bot_response", VStr (generate_response intent []));
             ("intent", intent);
             ("recommendations", VList []) ] 200),
     log ++ [MessageCreated "user" user_text None; PreferencesSaved prefs';
             MessageCreated "bot" (generate_response intent []) (Some intent)]).
Proof.
  intros Htext (Hmsg & Hsave & _) Hintent Hmerge Hgate.
  apply String.eqb_neq in Htext.
  unfold send_message, process_message, get_recommendations.
  rewrite Htext.
  unfold catch, then_, write, lift, ret.
  rewrite Hmsg, Hintent, Hmerge, Hsave, Hgate.
  cbn [fst snd String.eqb]. rewrite Hmsg. cbn [MakcorpsClient.map_result].
  repeat rewrite <- app_assoc. reflexivity.
Qed.

(** An offer whose price is a text [float] cannot read is ranked, with the
    price taken as 0, but its payload cannot be built. *)
Lemma payload_rec_unreadable_price (h : dict) (s : string) :
  get h "price" = VStr s -> s <> EmptyString -> float_of_str s = None ->
  price_of h = Ok 0.0 /\ payload_rec h = Raise ValueError.
Proof.
  intros Hget Hne Hfloat.
  assert (Ht : truthy (VStr s) = true)
    by (simpl; destruct s; [contradiction | reflexivity]).
  split.
  - unfold price_of, or_. rewrite Hget, Ht. unfold _to_float. simpl.
    rewrite Hfloat. reflexivity.
  - unfold payload_rec. rewrite Hget. unfold or_ at 2. rewrite Ht.
    unfold or_ at 1. rewrite Ht. simpl. rewrite Hfloat. reflexivity.
Qed.

(** X21.  When the payload of one of the first five offers cannot be built
    (its price, rating or score is not a number [float] reads), the reply is
    the error with status 400, although the search, the ranking and every
    write of the turn succeeded: the rows and the bot's message, which lists
    the offers, are stored. *)
Theorem send_message_fails_after_storing
    (prefs prefs' : UserSearchPreference) (user_text : string)
    (intent_data intent : value) (hotels ranked : list dict) (pd : dict)
    (e : exn) (log : list event) :
  user_text <> EmptyString ->
  storage_accepts ->
  turn_intent intent_data = Ok intent ->
  update_preferences intent_data prefs = Ok prefs' ->
  searches intent prefs' = true ->
  search_hotels svc (location prefs') (str_of (check_in prefs'))
    (str_of (check_out prefs')) (guests prefs') = Ok hotels ->
  hotels <> [] ->
  prefs_dict prefs' = Ok pd ->
  rank_hotels hotels pd = Ok ranked ->
  MakcorpsClient.map_result payload_rec (firstn 5 ranked) = Raise e ->
  exists rows,
    MakcorpsClient.map_result recommendation_row (firstn 10 ranked) = Ok rows /\
    send_message svc (Some prefs) user_text intent_data log
    = (Ok failed_reply,
       log ++ [MessageCreated "user" user_text None; PreferencesSaved prefs';
               search_event prefs']
           ++ map RecommendationCreated rows
           ++ [MessageCreated "bot" (generate_response intent (firstn 5 ranked))
                 (Some intent)]).
Proof.
  intros Htext (Hmsg & Hsave & Hcreate) Hintent Hmerge Hgate Hsearch Hne Hpd
    Hrank Hpayload.
  assert (Hrows : exists rows,
            MakcorpsClient.map_result recommendation_row (firstn 10 ranked) = Ok rows /\
            length rows = length (firstn 10 ranked)).
  { eapply rows_of_ranked; [exact Hrank |].
    intros x Hx. eapply In_firstn. exact Hx. }
  destruct Hrows as (rows & Hrows & _).
  exists rows. split; [exact Hrows |].
  assert (Hnonempty : nonempty hotels = true)
    by (destruct hotels; [contradiction | reflexivity]).
  apply String.eqb_neq in Htext.
  unfold send_message, process_message, get_recommendations, search_and_rank.
  rewrite Htext.
  unfold catch, then_, write, call, lift, ret.
  rewrite Hmsg, Hintent, Hmerge, Hsave, Hgate, Hsearch.
  cbv beta iota. rewrite Hnonempty, Hpd. cbv beta iota. rewrite Hrank.
  cbv beta iota.
  erewrite save_recommendations_run by eassumption.
  cbn [fst snd String.eqb]. rewrite Hmsg, Hpayload.
  f_equal. repeat rewrite <- app_assoc. reflexivity.
Qed.

(** X22.  When the intent record is not a dictionary the turn stops at the
    first read of it: the reply is the error with status 400, the user's
    message is stored, and nothing else is: the preferences are not saved and
    no search is made. *)
Theorem send_message_rejects_a_non_object
    (prefs : UserSearchPreference) (user_text : string) (intent_data : value)
    (log : list event) :
  user_text <> EmptyString ->
  create_message svc "user" user_text None = Ok tt ->
  (forall d, intent_data <> VDict d) ->
  send_message svc (Some prefs) user_text intent_data log
  = (Ok failed_reply, log ++ [MessageCreated "user" user_text None]).
Proof.
  intros Htext Hmsg Hshape.
  apply String.eqb_neq in Htext.
  unfold send_message, process_message. rewrite Htext.
  unfold catch, then_, write, lift, ret. rewrite Hmsg.
  destruct intent_data; try reflexivity.
  exfalso. eapply Hshape. reflexivity.
Qed.








End Facts.
End SendMessageFacts.

(** ** Examples for the further properties *)

Module MoreChecks.
Import Py RecommendationEngine Views ChatbotAIEngine MakcorpsClient MakcorpsHotel.
Import Orchestration SendMessage Examples MoreExamples.

#[local] Existing Instance listing_runtime.

(** The offer without a price, with the top rating, the wanted amenity and
    500 reviews reaches the upper bound: 30 + 25 + 20 + 15 = 90. *)
Lemma score_between_0_and_90_witness :
  exists s,
    calculate_score wifi_prefs ideal_hotel = Ok s /\ s == 90 /\ 0 <= s <= 90.
Proof.
  eexists. split; [reflexivity |]. split; [vm_compute; reflexivity |].
  eapply (ScoreBounds.score_between_0_and_90 wifi_prefs ideal_hotel);
    [reflexivity | vm_compute; intros H; discriminate H | reflexivity].
Defined.

(** With a budget of 120 the offer at 90 gets no fewer price points than the
    offer at 100. *)
Lemma cheaper_offer_witness :
  exists s1 s2,
    price_score budget_120 offer_b = Ok s1 /\
    price_score budget_120 offer_a = Ok s2 /\
    s2 <= s1.
Proof.
  apply (ScoreBounds.cheaper_offer_scores_no_less_on_price
           budget_120 offer_b offer_a (b := 120) (p1 := 90) (p2 := 100));
    try reflexivity; vm_compute; intros H; discriminate H.
Defined.

Lemma rank_hotels_idempotent_witness :
  exists ranked,
    rank_hotels two_offers budget_120 = Ok ranked /\
    rank_hotels ranked budget_120 = Ok ranked.
Proof.
  eexists. split; [reflexivity |].
  apply (RankingMore.rank_hotels_idempotent two_offers). reflexivity.
Defined.

Lemma rank_hotels_only_adds_score_witness :
  exists ranked,
    rank_hotels two_offers budget_120 = Ok ranked /\
    forall o, In o ranked ->
      exists h s,
        In h two_offers /\
        calculate_score budget_120 h = Ok s /\
        lookup "score" o = Some (VFloat s) /\
        forall k, k <> "score" -> lookup k o = lookup k h.
Proof.
  eexists. split; [reflexivity |].
  apply (RankingMore.rank_hotels_only_adds_score two_offers). reflexivity.
Defined.

Lemma update_preferences_idempotent_witness :
  exists prefs',
    update_preferences refining_turn stored_prefs = Ok prefs' /\
    budget_max prefs' = VFloat 80 /\
    update_preferences refining_turn prefs' = Ok prefs'.
Proof.
  eexists. split; [reflexivity |]. split; [reflexivity |].
  apply (TurnMore.update_preferences_idempotent refining_fields stored_prefs).
  reflexivity.
Defined.

(** A completion whose text is the empty array. *)
Lemma json_that_is_no_object_witness :
  parse_user_intent (VStr "gsk") (Responded array_response) = VList [] /\
  turn_intent (VList []) = Raise AttributeError /\
  update_preferences (VList []) stored_prefs = Raise AttributeError.
Proof.
  apply TurnMore.json_that_is_no_object_breaks_the_turn
    with (resp := array_response) (body := array_body) (text := "[]");
    try reflexivity.
  intros d H; discriminate H.
Defined.

(** The city search of the example: the record gives an offer, the trailing
    list is skipped. *)
Lemma city_search_keeps_each_record_witness :
  exists offers tr',
    search_by_city_id city_provider makcorps (VInt 482) (VStr "2025-03-01")
      (VStr "2025-03-05") (VInt 2) (VInt 1) (VStr "EUR") (VInt 0) []
    = (Ok offers, tr') /\
    length offers = 1%nat.
Proof.
  destruct (AdapterMore.city_search_keeps_each_record city_provider makcorps
              (VInt 482) (VStr "2025-03-01") (VStr "2025-03-05") (VInt 2) (VInt 1)
              (VStr "EUR") (VInt 0) [] eq_refl)
    as (offers & Hrun & _ & Hlen).
  exists offers. eexists. split; [exact Hrun | exact Hlen].
Defined.


(** Two vendors, two offers: the first priced by its numbered key, the second
    by the key that starts with ['price'] whatever its case. *)
Lemma hotel_search_witness :
  exists offers tr',
    search_by_hotel_id hotel_provider makcorps (VInt 7) (VStr "2025-03-01")
      (VStr "2025-03-05") (VInt 2) (VInt 1) (VStr "EUR") []
    = (Ok offers, tr') /\
    map (fun o => get o "raw") offers = map VDict [vendor_a; vendor_b] /\
    map (fun o => get o "price") offers = [VStr "$120"; VInt 95].
Proof.
  destruct (@HotelSearchFacts.hotel_search_one_offer_per_vendor hotel_provider makcorps
              (VInt 7) (VStr "2025-03-01") (VStr "2025-03-05") (VInt 2) (VInt 1)
              (VStr "EUR") [] hotel_body [vendor_a; vendor_b] [VList []]
              eq_refl eq_refl)
    as (offers & Hrun & Hraw & _).
  vm_compute in Hrun. injection Hrun as <-.
  do 2 eexists. split; [reflexivity |]. split; reflexivity.
Defined.

Lemma hotel_search_raises_witness :
  exists e,
    fst (search_by_hotel_id odd_hotel_provider makcorps (VInt 7) (VStr "2025-03-01")
           (VStr "2025-03-05") (VInt 2) (VInt 1) (VStr "EUR") []) = Raise e.
Proof.
  apply (@HotelSearchFacts.hotel_search_raises_on_odd_vendor odd_hotel_provider
           makcorps (VInt 7) (VStr "2025-03-01") (VStr "2025-03-05") (VInt 2) (VInt 1)
           (VStr "EUR") [] odd_hotel_body [VDict vendor_a; VStr "taxes included"] []
           (VStr "taxes included") eq_refl eq_refl).
  - right. left. reflexivity.
  - intros d H; discriminate H.
Defined.

(** The body has ['output'] before ['text']: the answer is the text. *)
Lemma call_makcorps_witness :
  call_makcorps dumps_nothing (fun _ _ => Responded makcorps_response) configured
    "Bonjour ?" VNone
  = VStr "Bonjour".
Proof.
  apply (OrchestrationFacts.call_makcorps_first_known_key dumps_nothing
           (fun _ _ => Responded makcorps_response) configured "Bonjour ?" VNone
           (resp := makcorps_response) (d := makcorps_reply_body));
    try reflexivity.
  right. reflexivity.
Defined.

Lemma orchestrate_response_raises_witness :
  orchestrate_response dumps_nothing (fun _ => Responded array_response)
    (fun _ => Raised Timeout) (fun _ _ => Responded makcorps_response) configured
    "Un riad ?"
  = Raise AttributeError.
Proof.
  apply OrchestrationFacts.orchestrate_response_raises_on_non_object.
  intros d H; discriminate H.
Defined.

(** The empty object has no intent: the intent is ['help'], and the Sanity
    endpoint, failing or answering, makes no difference. *)
Lemma orchestrate_response_without_lookup_witness :
  orchestrate_response dumps_nothing (fun _ => Responded object_response)
    (fun _ => Raised Timeout) (fun _ _ => Responded makcorps_response) configured
    "Bonjour"
  = Ok (VDict [("reply", VStr "Bonjour"); ("intent", VStr "help");
               ("recommendations", VList [])]) /\
  orchestrate_response dumps_nothing (fun _ => Responded object_response)
    (fun _ => Raised Timeout) (fun _ _ => Responded makcorps_response) configured
    "Bonjour"
  = orchestrate_response dumps_nothing (fun _ => Responded object_response)
      (fun _ => Responded makcorps_response) (fun _ _ => Responded makcorps_response)
      configured "Bonjour".
Proof.
  split; [reflexivity |].
  apply OrchestrationFacts.orchestrate_response_without_lookup with (d := []);
    [reflexivity | left; reflexivity].
Defined.

(** A search that finds the two offers of the example: two rows are stored
    and two payloads returned. *)
Lemma send_message_saves_witness :
  exists ranked payload rows,
    MakcorpsClient.map_result recommendation_row (firstn 10 ranked) = Ok rows /\
    length rows = Nat.min 10 (length two_offers) /\
    length payload = Nat.min 5 (length two_offers) /\
    send_message (accept_all (Ok two_offers)) (Some stored_prefs) "Un riad ?"
      search_turn []
    = (Ok (Response
             [ ("bot_response",
                VStr (generate_response (VStr "search") (firstn 5 ranked)));
               ("intent", VStr "search");
               ("recommendations", VList payload) ] 200),
       [] ++ [MessageCreated "user" "Un riad ?" None; PreferencesSaved stored_prefs;
              Searched (VStr "Marrakech") "2025-03-01" "2025-03-05" (VInt 2)]
          ++ map RecommendationCreated rows
          ++ [MessageCreated "bot"
                (generate_response (VStr "search") (firstn 5 ranked))
                (Some (VStr "search"))]).
Proof.
  do 2 eexists.
  change (Searched (VStr "Marrakech") "2025-03-01" "2025-03-05" (VInt 2))
    with (Searched (location stored_prefs) (str_of (check_in stored_prefs))
            (str_of (check_out stored_prefs)) (guests stored_prefs)).
  eapply (SendMessageFacts.send_message_saves_ten_returns_five
            (accept_all (Ok two_offers)) stored_prefs (prefs' := stored_prefs)
            (user_text := "Un riad ?") search_turn (intent := VStr "search")
            (hotels := two_offers) []).
  - discriminate.
  - repeat split.
  - reflexivity.
  - reflexivity.
  - reflexivity.
  - reflexivity.
  - discriminate.
  - reflexivity.
  - reflexivity.
  - reflexivity.
Defined.


(** A turn that refines makes no search. *)
Lemma send_message_without_search_witness :
  exists prefs',
    update_preferences refining_turn stored_prefs = Ok prefs' /\
    send_message (accept_all (Ok two_offers)) (Some stored_prefs) "Moins cher"
      refining_turn []
    = (Ok (Response
             [ ("bot_response", VStr (generate_response (VStr "refine") []));
               ("intent", VStr "refine");
               ("recommendations", VList []) ] 200),
       [] ++ [MessageCreated "user" "Moins cher" None; PreferencesSaved prefs';
              MessageCreated "bot" (generate_response (VStr "refine") [])
                (Some (VStr "refine"))]).
Proof.
  eexists. split; [reflexivity |].
  eapply (SendMessageFacts.send_message_without_search
            (accept_all (Ok two_offers)) stored_prefs (user_text := "Moins cher")
            refining_turn (intent := VStr "refine") []).
  - discriminate.
  - repeat split.
  - reflexivity.
  - reflexivity.
  - reflexivity.
Defined.

(** An offer whose price is the text ['N/A'] is ranked and stored, and then
    fails the reply. *)
Lemma send_message_fails_after_storing_witness :
  exists ranked rows,
    MakcorpsClient.map_result recommendation_row (firstn 10 ranked) = Ok rows /\
    send_message (accept_all (Ok [unpriced_hotel])) (Some stored_prefs) "Un riad ?"
      search_turn []
    = (Ok (Response [("error", VStr "Failed to process message")] 400),
       [] ++ [MessageCreated "user" "Un riad ?" None; PreferencesSaved stored_prefs;
              Searched (VStr "Marrakech") "2025-03-01" "2025-03-05" (VInt 2)]
          ++ map RecommendationCreated rows
          ++ [MessageCreated "bot"
                (generate_response (VStr "search") (firstn 5 ranked))
                (Some (VStr "search"))]).
Proof.
  eexists.
  change (Searched (VStr "Marrakech") "2025-03-01" "2025-03-05" (VInt 2))
    with (Searched (location stored_prefs) (str_of (check_in stored_prefs))
            (str_of (check_out stored_prefs)) (guests stored_prefs)).
  eapply (SendMessageFacts.send_message_fails_after_storing
            (accept_all (Ok [unpriced_hotel])) stored_prefs (prefs' := stored_prefs)
            (user_text := "Un riad ?") search_turn (intent := VStr "search")
            (hotels := [unpriced_hotel]) (e := ValueError) []).
  - discriminate.
  - repeat split.
  - reflexivity.
  - reflexivity.
  - reflexivity.
  - reflexivity.
  - discriminate.
  - reflexivity.
  - reflexivity.
  - reflexivity.
Defined.

Lemma send_message_rejects_a_non_object_witness :
  send_message (accept_all (Ok two_offers)) (Some stored_prefs) "Un riad ?"
    (VList []) []
  = (Ok (Response [("error", VStr "Failed to process message")] 400),
     [] ++ [MessageCreated "user" "Un riad ?" None]).
Proof.
  apply (SendMessageFacts.send_message_rejects_a_non_object
           (accept_all (Ok two_offers)) stored_prefs (user_text := "Un riad ?")
           (intent_data := VList []) []).
  - discriminate.
  - reflexivity.
  - intros d H; discriminate H.
Defined.

End MoreChecks.
